(** * consultor.py: natural language to SQL over HTTP

    A shallow embedding of [src/consultor.py]: the [SQLChatBot] class
    (database gateway, LLM query generator, LLM explainer) and the Flask
    handler [query_database], followed by the properties of the
    specification that concern them.

    The program talks to three outside parties: the HTTP client
    ([requests.post]), the PostgreSQL driver ([psycopg2]) and the console
    ([print]).  Their answers are taken from an environment [Env]; every
    interaction is recorded, in order, in the list of effects of a run. *)

From Stdlib Require Import ZArith QArith String Ascii.
From stdpp Require Import base option list gmap.

Set Warnings "-register-all,-clear-no-such-hyp".
Set Default Proof Using "Type".

(** ** Python strings *)

(** A Python [str] is a sequence of code points. *)
Abbreviation pystr := (list N).

Module Str.

(** Decoding of the UTF-8 bytes of a literal: [need] continuation bytes
    are still expected for the code point accumulated in [acc]. *)
Fixpoint utf8_decode (need : nat) (acc : N) (bs : list N) : pystr :=
  match bs with
  | [] => []
  | b :: bs' =>
      match need with
      | S n =>
          let acc' := (acc * 64 + b mod 64)%N in
          match n with
          | O => acc' :: utf8_decode 0 0 bs'
          | S _ => utf8_decode n acc' bs'
          end
      | O =>
          if (b <? 128)%N then b :: utf8_decode 0 0 bs'
          else if (b <? 224)%N then utf8_decode 1 (b mod 32) bs'
          else if (b <? 240)%N then utf8_decode 2 (b mod 16) bs'
          else utf8_decode 3 (b mod 8) bs'
      end
  end.

(** The Python string denoted by a literal of the source file. *)
Definition py (s : string) : pystr :=
  utf8_decode 0 0 (N_of_ascii <$> list_ascii_of_string s).

(** [str.isspace] on one code point, the test [str.strip()] uses:
    the ASCII table of CPython below 128, the Unicode white space
    property above. *)
Definition isspace (c : N) : bool :=
  ((9 <=? c) && (c <=? 13) || (28 <=? c) && (c <=? 32)
   || (c =? 133) || (c =? 160) || (c =? 5760)
   || (8192 <=? c) && (c <=? 8202)
   || (c =? 8232) || (c =? 8233) || (c =? 8239) || (c =? 8287)
   || (c =? 12288))%N.

Fixpoint lstrip (s : pystr) : pystr :=
  match s with
  | c :: s' => if isspace c then lstrip s' else s
  | [] => []
  end.

Definition rstrip (s : pystr) : pystr := reverse (lstrip (reverse s)).

(** [s.strip()] *)
Definition strip (s : pystr) : pystr := rstrip (lstrip s).

(** Left-to-right scan of [s.replace(old, new)] for a non-empty [old]:
    [skip] counts the characters of the current match that are still to
    be consumed. *)
Fixpoint replace_from (old new : pystr) (skip : nat) (s : pystr) : pystr :=
  match s with
  | [] => []
  | c :: s' =>
      match skip with
      | S k => replace_from old new k s'
      | O =>
          if decide (old `prefix_of` s)
          then new ++ replace_from old new (length old - 1) s'
          else c :: replace_from old new 0 s'
      end
  end.

(** [s.replace(old, new)]: every non-overlapping occurrence of [old],
    found from the left, is replaced by [new]; an empty [old] matches
    before every character and at the end. *)
Definition replace (old new s : pystr) : pystr :=
  match old with
  | [] => new ++ (s ≫= λ c, c :: new)
  | _ :: _ => replace_from old new 0 s
  end.

(** [p] occurs in [s] as a contiguous substring ([p in s]). *)
Definition occurs_in (p s : pystr) : Prop := ∃ a b, s = a ++ p ++ b.

(** Number of leading occurrences of the character [c]. *)
Fixpoint lead (c : N) (s : pystr) : nat :=
  match s with
  | x :: s' => if decide (x = c) then S (lead c s') else 0
  | [] => 0
  end.

End Str.

Import Str.

(** ** Python values *)

(** The values in JSON form that travel through the program: the body
    of the request, the documents the provider answers with, the
    answers of the handler.  A [dict] keyed by strings is a finite map
    (the handler never branches on the order of its keys). *)
Inductive json :=
| JNull                                  (* None *)
| JBool (b : bool)
| JInt (z : Z)
| JFloat (q : Q)
| JStr (s : pystr)
| JList (l : list json)
| JObject (m : gmap pystr json).

(** A cell of a fetched row, as the driver hands it over: a value that
    Flask's JSON provider serialises, given by its JSON form, or an
    object it does not serialise (a [memoryview] for a [bytea] column, a
    [datetime.time], a [datetime.timedelta]), given by the name of its
    type. *)
Inductive cell :=
| Cell (v : json)
| Unserializable (type_name : pystr).

(** One record of a query result: column name to cell. *)
Abbreviation row := (gmap pystr cell).

(** [type(v).__name__] *)
Definition type_name (v : json) : pystr :=
  match v with
  | JNull => py "NoneType"
  | JBool _ => py "bool"
  | JInt _ => py "int"
  | JFloat _ => py "float"
  | JStr _ => py "str"
  | JList _ => py "list"
  | JObject _ => py "dict"
  end.

(** Truth value of [v], as [not v] and [if v:] test it. *)
Definition truthy (v : json) : bool :=
  match v with
  | JNull => false
  | JBool b => b
  | JInt z => negb (z =? 0)%Z
  | JFloat q => negb (Qnum q =? 0)%Z
  | JStr s => match s with [] => false | _ => true end
  | JList l => match l with [] => false | _ => true end
  | JObject m => negb (bool_decide (size m = 0))
  end.

(** Truth value of an optional string ([None] or a [str]). *)
Definition truthy_str (o : option pystr) : bool :=
  match o with
  | None => false
  | Some s => truthy (JStr s)
  end.

(** [str(o)] for an optional string, as an f-string formats it. *)
Definition str_of_option (o : option pystr) : pystr :=
  match o with
  | None => py "None"
  | Some s => s
  end.

(** ** Exceptions *)

(** The classes the program tells apart ([except psycopg2.Error],
    [except Exception]) and those the interpreter raises on the
    operations the program performs.  Every class is a subclass of
    [Exception]. *)
Inductive exc_class :=
| Psycopg2Error
| AttributeError
| KeyError
| IndexError
| TypeError
| OtherException.

(** An exception instance: its class and [str(e)]. *)
Record exn := Exn { exn_class : exc_class; exn_str : pystr }.

Global Instance exc_class_eq_dec : EqDecision exc_class.
Proof. solve_decision. Defined.

(** [isinstance(e, psycopg2.Error)] *)
Definition is_psycopg2_error (e : exn) : bool :=
  bool_decide (exn_class e = Psycopg2Error).

(** [isinstance(e, Exception)] *)
Definition is_exception (e : exn) : bool := true.

(** The result of evaluating an expression: a value or a raised
    exception. *)
Inductive outcome (A : Type) :=
| Return (a : A)
| Raise (e : exn).
Global Arguments Return {A} a.
Global Arguments Raise {A} e.

(** ** Operations of the interpreter on values *)

(** [v[k]] for a string key [k] (one of the program's literals, whose
    [repr] is the key between single quotes). *)
Definition getitem_key (v : json) (k : pystr) : outcome json :=
  match v with
  | JObject m =>
      match m !! k with
      | Some x => Return x
      | None => Raise (Exn KeyError (py "'" ++ k ++ py "'"))
      end
  | JList _ =>
      Raise (Exn TypeError (py "list indices must be integers or slices, not str"))
  | JStr _ =>
      Raise (Exn TypeError (py "string indices must be integers, not 'str'"))
  | _ =>
      Raise (Exn TypeError (py "'" ++ type_name v ++ py "' object is not subscriptable"))
  end.

(** [v[0]] *)
Definition getitem_0 (v : json) : outcome json :=
  match v with
  | JList l =>
      match l with
      | x :: _ => Return x
      | [] => Raise (Exn IndexError (py "list index out of range"))
      end
  | JStr s =>
      match s with
      | c :: _ => Return (JStr [c])
      | [] => Raise (Exn IndexError (py "string index out of range"))
      end
  | JObject _ => Raise (Exn KeyError (py "0"))
  | _ =>
      Raise (Exn TypeError (py "'" ++ type_name v ++ py "' object is not subscriptable"))
  end.

(** [v.get(k)]: only a [dict] has the method; an absent key gives
    [None]. *)
Definition dict_get (v : json) (k : pystr) : outcome json :=
  match v with
  | JObject m => Return (default JNull (m !! k))
  | _ =>
      Raise (Exn AttributeError
               (py "'" ++ type_name v ++ py "' object has no attribute 'get'"))
  end.

(** [v.strip()]: only a [str] has the method. *)
Definition str_strip (v : json) : outcome pystr :=
  match v with
  | JStr s => Return (strip s)
  | _ =>
      Raise (Exn AttributeError
               (py "'" ++ type_name v ++ py "' object has no attribute 'strip'"))
  end.

(** [dict(pairs)]: later pairs overwrite earlier ones with the same
    key. *)
Definition dict (pairs : list (pystr * cell)) : row :=
  foldl (λ m kv, <[kv.1 := kv.2]> m) ∅ pairs.

(** ** The outside world *)

(** The user message of a chat request; the f-string that formats the
    argument into the text is kept symbolic. *)
Inductive user_content :=
| Convierte (user_input : json)
    (* f"Convierte esta consulta a SQL: {user_input}" *)
| Interpreta (query_result : option (list row)).
    (* f"Interpreta estos resultados y genera una respuesta detallada
       para el usuario: {query_result}" *)

(** The [payload] dictionary of both LLM calls: the model, the content
    of the system message, the content of the user message and the
    token limit. *)
Record Payload := {
  model : pystr;
  system_content : pystr;
  user_message : user_content;
  max_tokens : Z
}.

(** A [requests.Response]: its status and what [response.json()]
    evaluates to (it raises when the body is not a JSON document). *)
Record Response := {
  status_code : Z;
  Response_json : outcome json
}.

(** An open [psycopg2] connection. *)
Inductive connection := Connection.

(** An entry of [cursor.description]; [desc[0]] is the column name. *)
Record Column := { name : pystr; type_code : Z }.

(** The incoming Flask request: what [request.json] evaluates to. *)
Record Request := { request_json : outcome json }.

(** What the view function hands back to Flask. *)
Record FlaskResponse := { body : json; status : Z }.

(** [jsonify(obj)] for an [obj] in JSON form: a JSON response, status
    200 unless the view returns it in a tuple with another status.  The
    rows of the driver are brought to JSON form by [json_of_results]
    below, the part of [jsonify] that can raise. *)
Definition jsonify (obj : json) : FlaskResponse := {| body := obj; status := 200 |}.

Definition with_status (r : FlaskResponse) (code : Z) : FlaskResponse :=
  {| body := body r; status := code |}.

(** What is printed on the console; the formatted text is kept
    symbolic. *)
Inductive console_msg :=
| MsgConnectError (e : exn)               (* "Error conectando a PostgreSQL: {e}" *)
| MsgGeneratedQuery (sql_query : option pystr)
                                          (* "Consulta generada por OpenAI:\n{sql_query}" *)
| MsgOpenAIError (body : json).           (* "Error en la API de OpenAI: {response.json()}" *)

(** The interactions of a run with the outside world. *)
Inductive event :=
| EvPost (url : pystr) (payload : Payload) (authorization : pystr)
| EvConnect (dsn : option pystr) (sslmode : pystr) (opened : bool)
| EvCursor
| EvExecute (sql_query : pystr)
| EvFetchall
| EvCursorClose
| EvClose
| EvPrint (msg : console_msg).

(** The answers of the outside world during one request. *)
Record Env := {
  requests_post : pystr → Payload → pystr → outcome Response;
  psycopg2_connect : option pystr → pystr → outcome connection;
  cursor_execute : pystr → outcome unit;
  cursor_fetchall : pystr → outcome (list (list cell));
  cursor_description : pystr → option (list Column)
}.

(** ** The shared object and the monad of the program *)

(** The state of a [SQLChatBot] instance; [None] is what [os.getenv]
    gives for an unset variable. *)
Record SQLChatBot := {
  db_url : option pystr;
  openai_api_key : option pystr
}.

(** A finished computation: its outcome, the instance bound to the
    module-level name [sql_chatbot] afterwards, and the interactions it
    performed, oldest first. *)
Record run (A : Type) := Run {
  result : outcome A;
  chatbot : SQLChatBot;
  effects : list event
}.
Global Arguments Run {A} result chatbot effects.
Global Arguments result {A} r.
Global Arguments chatbot {A} r.
Global Arguments effects {A} r.

(** A computation reads and may update the shared instance. *)
Definition M (A : Type) : Type := SQLChatBot → run A.

Global Instance M_ret : MRet M := λ A a self, Run (Return a) self [].

Global Instance M_bind : MBind M := λ A B f m self,
  match m self with
  | Run (Return a) self' t =>
      let r := f a self' in Run (result r) (chatbot r) (t ++ effects r)
  | Run (Raise e) self' t => Run (Raise e) self' t
  end.

(** Evaluation of an expression that does not touch the outside world. *)
Definition eval {A} (o : outcome A) : M A := λ self, Run o self [].

(** A call to the outside world: recorded, then answered. *)
Definition ext {A} (ev : event) (o : outcome A) : M A := λ self, Run o self [ev].

(** [print(...)] *)
Definition print (msg : console_msg) : M unit := ext (EvPrint msg) (Return ()).

(** Reading the attributes of [self]. *)
Definition self_get : M SQLChatBot := λ self, Run (Return self) self [].

(** [self.db_url = v] and [self.openai_api_key = v] *)
Definition set_db_url (v : option pystr) : M unit := λ self,
  Run (Return ()) {| db_url := v; openai_api_key := openai_api_key self |} [].

Definition set_openai_api_key (v : option pystr) : M unit := λ self,
  Run (Return ()) {| db_url := db_url self; openai_api_key := v |} [].

(** [try: body except <class> as e: handler e] *)
Definition try_except {A} (body : M A) (catches : exn → bool) (handler : exn → M A) : M A :=
  λ self,
    match body self with
    | Run (Raise e) self' t =>
        if catches e
        then let r := handler e self' in Run (result r) (chatbot r) (t ++ effects r)
        else Run (Raise e) self' t
    | r => r
    end.

(** [with conn.cursor() as cursor: body]: the cursor is closed when the
    block is left, normally or by an exception. *)
Definition with_cursor {A} (body : M A) : M A := λ self,
  let r := body self in
  Run (result r) (chatbot r) (EvCursor :: effects r ++ [EvCursorClose]).

(** [[desc[0] for desc in description]]: [None] is not iterable. *)
Definition column_names (description : option (list Column)) : outcome (list pystr) :=
  match description with
  | Some descs => Return (name <$> descs)
  | None => Raise (Exn TypeError (py "'NoneType' object is not iterable"))
  end.

(** ** class SQLChatBot *)

(** [os.getenv(name)] *)
Definition os_getenv (environ : gmap pystr pystr) (name : pystr) : option pystr :=
  environ !! name.

(** [SQLChatBot.__init__] *)
Definition SQLChatBot_init (environ : gmap pystr pystr) : M unit :=
  set_db_url (os_getenv environ (py "DATABASE_URL"));;
  set_openai_api_key (os_getenv environ (py "OPENAI_API_KEY")).

(** [sql_chatbot = SQLChatBot()]: a new instance, initialised. *)
Definition new_SQLChatBot (environ : gmap pystr pystr) : SQLChatBot :=
  chatbot (SQLChatBot_init environ {| db_url := None; openai_api_key := None |}).

Definition completions_url : pystr := py "https://api.openai.com/v1/chat/completions".

Definition sql_system_content : pystr :=
  py "Eres un asistente experto en SQL para PostgreSQL. La base de datos contiene la tabla 'public.usuarios' con las siguientes columnas:
"
  ++ py "- id (SERIAL) -> Identificador único del usuario (PRIMARY KEY)
"
  ++ py "- nombre (VARCHAR) -> Nombre del usuario
"
  ++ py "- email (VARCHAR) -> Correo electrónico (único)
"
  ++ py "- edad (INT) -> Edad del usuario
"
  ++ py "Responde SOLO con la consulta SQL correcta para PostgreSQL. No expliques nada, solo responde con la consulta SQL sin formateo adicional.".

Definition explain_system_content : pystr :=
  py "Eres un asistente que ayuda a interpretar respuestas de una base de datos SQL."
  ++ py "Dado un conjunto de resultados de una consulta SQL, genera una respuesta explicativa en lenguaje natural."
  ++ py "No muestres la consulta SQL ni los datos en crudo, solo proporciona una explicación clara.".

(** The code-fence markers removed from the reply. *)
Definition fence_sql : pystr := py "```sql".
Definition fence : pystr := py "```".

(** [content.strip().replace('```sql', '').replace('```', '')] on a
    string [content]. *)
Definition clean_sql (content : pystr) : pystr :=
  replace fence [] (replace fence_sql [] (strip content)).

Section Program.

Context (E : Env).

(** [SQLChatBot.connect_db] *)
Definition connect_db : M (option connection) :=
  self ← self_get;
  try_except
    (let o := psycopg2_connect E (db_url self) (py "require") in
     conn ← ext (EvConnect (db_url self) (py "require")
                   (match o with Return _ => true | Raise _ => false end)) o;
     mret (Some conn))
    is_psycopg2_error
    (λ e, print (MsgConnectError e);; mret None).

(** [SQLChatBot.execute_query] *)
Definition execute_query (sql_query : pystr)
  : M (option (list row) * option pystr) :=
  conn ← connect_db;
  match conn with
  | None => mret (None, Some (py "No se pudo conectar a la base de datos."))
  | Some _ =>
      try_except
        ('(result, columns) ←
           with_cursor
             (ext (EvExecute sql_query) (cursor_execute E sql_query);;
              result ← ext EvFetchall (cursor_fetchall E sql_query);
              columns ← eval (column_names (cursor_description E sql_query));
              mret (result, columns));
         ext EvClose (Return ());;
         mret (Some ((λ row, dict (zip columns row)) <$> result), None))
        is_psycopg2_error
        (λ e, mret (None, Some (py "Error en la base de datos: " ++ exn_str e)))
  end.

(** [SQLChatBot.get_sql_query_from_openai]: [None] or a string. *)
Definition get_sql_query_from_openai (user_input : json) : M (option pystr) :=
  self ← self_get;
  let headers := py "Bearer " ++ str_of_option (openai_api_key self) in
  let payload :=
    {| model := py "gpt-4-turbo";
       system_content := sql_system_content;
       user_message := Convierte user_input;
       max_tokens := 100 |} in
  response ← ext (EvPost completions_url payload headers)
                 (requests_post E completions_url payload headers);
  if (status_code response =? 200)%Z then
    body ← eval (Response_json response);
    choices ← eval (getitem_key body (py "choices"));
    choice ← eval (getitem_0 choices);
    message ← eval (getitem_key choice (py "message"));
    content ← eval (getitem_key message (py "content"));
    stripped ← eval (str_strip content);
    mret (Some (replace fence [] (replace fence_sql [] stripped)))
  else
    body ← eval (Response_json response);
    print (MsgOpenAIError body);;
    mret None.

(** [SQLChatBot.get_enhanced_response]: [JNull] stands for [None]. *)
Definition get_enhanced_response (query_result : option (list row)) : M json :=
  self ← self_get;
  let headers := py "Bearer " ++ str_of_option (openai_api_key self) in
  let payload :=
    {| model := py "gpt-4-turbo";
       system_content := explain_system_content;
       user_message := Interpreta query_result;
       max_tokens := 200 |} in
  response ← ext (EvPost completions_url payload headers)
                 (requests_post E completions_url payload headers);
  if (status_code response =? 200)%Z then
    body ← eval (Response_json response);
    choices ← eval (getitem_key body (py "choices"));
    choice ← eval (getitem_0 choices);
    message ← eval (getitem_key choice (py "message"));
    eval (getitem_key message (py "content"))
  else
    body ← eval (Response_json response);
    print (MsgOpenAIError body);;
    mret JNull.

(** The JSON form of a cell, when it has one. *)
Definition cell_json (c : cell) : option json :=
  match c with
  | Cell v => Some v
  | Unserializable _ => None
  end.

(** The JSON form of a record: its cells that have one. *)
Definition json_of_row (r : row) : gmap pystr json := omap cell_json r.

(** The type of the first cell of [rows] that has no JSON form.  (Flask
    walks a record in the order of the columns; a record is here a
    finite map, walked in the order of its keys.) *)
Definition offending (rows : list row) : option pystr :=
  head (rows ≫= λ r, (map_to_list r).*2 ≫= λ c,
          match c with
          | Unserializable type_name => [type_name]
          | Cell _ => []
          end).

(** What [jsonify] makes of [results]: [None] becomes null; rows become
    a list of objects, unless a cell has no JSON form: the JSON
    provider then raises [TypeError]. *)
Definition json_of_results (results : option (list row)) : outcome json :=
  match results with
  | None => Return JNull
  | Some rows =>
      match offending rows with
      | Some type_name =>
          Raise (Exn TypeError
                   (py "Object of type " ++ type_name ++ py " is not JSON serializable"))
      | None => Return (JList (JObject <$> (json_of_row <$> rows)))
      end
  end.

(** The JSON form of [db_error]. *)

Definition json_of_str (s : option pystr) : json :=
  match s with
  | Some s => JStr s
  | None => JNull
  end.

(** [{"error": msg}] *)
Definition error_body (msg : json) : json := JObject {[ py "error" := msg ]}.

(** The [try] block of [query_database]. *)
Definition query_database_try (user_input : json) : M FlaskResponse :=
  try_except
    (sql_query ← get_sql_query_from_openai user_input;
     print (MsgGeneratedQuery sql_query);;
     if negb (truthy_str sql_query) then
       mret (with_status
               (jsonify (error_body (JStr (py "No se pudo generar la consulta SQL")))) 500)
     else
       (* here sql_query is a non-empty string *)
       '(results, db_error) ← execute_query (default [] sql_query);
       if truthy_str db_error then
         mret (with_status (jsonify (error_body (json_of_str db_error))) 500)
       else
         detailed_response ← get_enhanced_response results;
         (* jsonify serialises the rows first: it raises here, inside
            the try, on a cell that has no JSON form *)
         data ← eval (json_of_results results);
         mret (jsonify (JObject (<[ py "data" := data ]>
                                 {[ py "enhanced_response" := detailed_response ]}))))
    is_exception
    (λ e, mret (with_status
                  (jsonify (error_body (JStr (py "Error general: " ++ exn_str e)))) 500)).

(** [query_database], the view of [POST /query]. *)
Definition query_database (request : Request) : M FlaskResponse :=
  data ← eval (request_json request);
  user_input ← eval (dict_get data (py "userInput"));
  if negb (truthy user_input) then
    mret (with_status
            (jsonify (error_body (JStr (py "Falta el parámetro 'userInput'")))) 400)
  else
    query_database_try user_input.

End Program.

(** ** Vocabulary of the properties *)

(** Every interaction of [m], from any state, satisfies [P]. *)
Definition emits {A} (P : event → Prop) (m : M A) : Prop :=
  ∀ self, Forall P (effects (m self)).

(** [m] leaves the shared instance as it found it. *)
Definition preserves_self {A} (m : M A) : Prop :=
  ∀ self, chatbot (m self) = self.

(** The request sent by the explainer. *)
Definition is_explain_post (ev : event) : bool :=
  match ev with
  | EvPost _ payload _ =>
      match user_message payload with
      | Interpreta _ => true
      | Convierte _ => false
      end
  | _ => false
  end.

(** Any request to the LLM provider. *)
Definition is_post (ev : event) : bool :=
  match ev with
  | EvPost _ _ _ => true
  | _ => false
  end.

(** Any use of the database driver. *)
Definition is_db_event (ev : event) : bool :=
  match ev with
  | EvConnect _ _ _ | EvCursor | EvExecute _ | EvFetchall
  | EvCursorClose | EvClose => true
  | EvPost _ _ _ | EvPrint _ => false
  end.

(** A connection was opened during the run. *)
Definition opens_connection (t : list event) : Prop :=
  ∃ dsn sslmode, EvConnect dsn sslmode true ∈ t.

(** What the DB-API promises of a cursor: every fetched row has one
    cell per entry of [cursor.description]. *)
Definition driver_rows_match_description (E : Env) : Prop :=
  ∀ sql_query rows descs,
    cursor_fetchall E sql_query = Return rows →
    cursor_description E sql_query = Some descs →
    Forall (λ r, length r = length descs) rows.

(** An exception [e] leaves one of the three steps inside the [try]
    block of [query_database], run on [user_input] from [self]. *)
Inductive step_raises (E : Env) (user_input : json) (self : SQLChatBot) (e : exn) : Prop :=
| raises_in_generation :
    result (get_sql_query_from_openai E user_input self) = Raise e →
    step_raises E user_input self e
| raises_in_execution sql_query :
    let r1 := get_sql_query_from_openai E user_input self in
    result r1 = Return sql_query →
    truthy_str sql_query = true →
    result (execute_query E (default [] sql_query) (chatbot r1)) = Raise e →
    step_raises E user_input self e
| raises_in_explanation sql_query results db_error :
    let r1 := get_sql_query_from_openai E user_input self in
    result r1 = Return sql_query →
    truthy_str sql_query = true →
    let r2 := execute_query E (default [] sql_query) (chatbot r1) in
    result r2 = Return (results, db_error) →
    truthy_str db_error = false →
    result (get_enhanced_response E results (chatbot r2)) = Raise e →
    step_raises E user_input self e.

(** ** Sample worlds *)

Module Sample.

Definition bot : SQLChatBot :=
  {| db_url := Some (py "postgres://user:pw@host/db");
     openai_api_key := Some (py "sk-test") |}.

(** A chat completion whose first choice carries [content]. *)
Definition completion (content : json) : Response :=
  {| status_code := 200;
     Response_json :=
       Return (JObject {[ py "choices" :=
         JList [JObject {[ py "message" :=
           JObject {[ py "content" := content ]} ]}] ]}) |}.

(** An error answer of the provider, with a JSON body. *)
Definition api_error : Response :=
  {| status_code := 429;
     Response_json :=
       Return (JObject {[ py "error" := JStr (py "rate limit") ]}) |}.

(** What [response.json()] raises on a body that is not JSON. *)
Definition decode_error : exn :=
  Exn OtherException (py "Expecting value: line 1 column 1 (char 0)").

(** An error page of a gateway in front of the provider: the body is
    HTML, so [response.json()] raises. *)
Definition bad_gateway : Response :=
  {| status_code := 502; Response_json := Raise decode_error |}.

Definition usuarios_description : list Column :=
  [ {| name := py "id"; type_code := 23 |};
    {| name := py "nombre"; type_code := 1043 |};
    {| name := py "email"; type_code := 1043 |};
    {| name := py "edad"; type_code := 23 |} ].

Definition usuarios_rows : list (list cell) :=
  [ [Cell (JInt 1); Cell (JStr (py "Ana")); Cell (JStr (py "ana@example.com"));
     Cell (JInt 41)];
    [Cell (JInt 2); Cell (JStr (py "Luis")); Cell (JStr (py "luis@example.com"));
     Cell (JInt 35)] ].

Definition sql_reply : pystr := py "```sql
SELECT * FROM usuarios WHERE edad > 30;
```".

Definition explanation : pystr := py "Hay dos usuarios mayores de 30.".

(** A world given by the two answers of the provider and the answer
    of the database to [cursor.execute]. *)
Definition world (generation explanation : Response) (execute : outcome unit) : Env :=
  {| requests_post := λ _ payload _,
       Return (match user_message payload with
               | Convierte _ => generation
               | Interpreta _ => explanation
               end);
     psycopg2_connect := λ _ _, Return Connection;
     cursor_execute := λ _, execute;
     cursor_fetchall := λ _, Return usuarios_rows;
     cursor_description := λ _, Some usuarios_description |}.

(** Everything works. *)
Definition happy : Env :=
  world (completion (JStr sql_reply)) (completion (JStr explanation)) (Return ()).


(** The generated statement is rejected by the database. *)
Definition syntax_error : exn :=
  Exn Psycopg2Error (py "syntax error at or near SELEC").

Definition bad_sql : Env :=
  world (completion (JStr (py "SELEC 1"))) (completion (JStr explanation))
        (Raise syntax_error).

(** The generator is refused by the provider. *)
Definition generator_down : Env :=
  world api_error (completion (JStr explanation)) (Return ()).

(** The generator is answered by a gateway error page. *)
Definition generator_gateway : Env :=
  world bad_gateway (completion (JStr explanation)) (Return ()).

(** The explainer is answered by a gateway error page. *)
Definition explainer_gateway : Env :=
  world (completion (JStr sql_reply)) bad_gateway (Return ()).

Definition question : json := JStr (py "show all users older than 30").

Definition request_of (doc : json) : Request := {| request_json := Return doc |}.

(** [{"userInput": "show all users older than 30"}] *)
Definition good_request : Request :=
  request_of (JObject {[ py "userInput" := question ]}).

(** [{}] *)
Definition empty_request : Request := request_of (JObject ∅).

(** [{"userInput": ""}] *)
Definition blank_request : Request :=
  request_of (JObject {[ py "userInput" := JStr [] ]}).

(** [[]] *)
Definition list_request : Request := request_of (JList []).

(** The database cannot be reached. *)
Definition connection_refused : exn :=
  Exn Psycopg2Error (py "could not connect to server: Connection refused").

Definition unreachable : Env :=
  {| requests_post := requests_post happy;
     psycopg2_connect := λ _ _, Raise connection_refused;
     cursor_execute := cursor_execute happy;
     cursor_fetchall := cursor_fetchall happy;
     cursor_description := cursor_description happy |}.




(** [null]: a body that is JSON but not an object. *)
Definition null_request : Request := request_of JNull.

(** The provider answers the generator with a refusal: no content. *)
Definition generator_null_content : Env :=
  world (completion JNull) (completion (JStr explanation)) (Return ()).

End Sample.

(** ** Further vocabulary *)

(** Every interaction of [m], run from [self], satisfies [P], and [m]
    leaves [self] as it found it. *)
Definition emits_from {A} (self : SQLChatBot) (P : event → Prop) (m : M A) : Prop :=
  Forall P (effects (m self)) ∧ chatbot (m self) = self.

Definition is_connect (ev : event) : bool :=
  match ev with
  | EvConnect _ _ _ => true
  | _ => false
  end.

Definition is_execute (ev : event) : bool :=
  match ev with
  | EvExecute _ => true
  | _ => false
  end.

(** Number of the interactions of a run that satisfy [p]. *)
Definition count (p : event → bool) (t : list event) : nat :=
  length (List.filter p t).

(** A request to the provider made on behalf of [self]: the chat
    completions endpoint, the key of [self] as bearer token, the model
    and the token limit of the kind of request. *)
Definition configured_post (self : SQLChatBot) (ev : event) : Prop :=
  match ev with
  | EvPost url payload authorization =>
      url = py "https://api.openai.com/v1/chat/completions" ∧
      authorization = py "Bearer " ++ str_of_option (openai_api_key self) ∧
      model payload = py "gpt-4-turbo" ∧
      max_tokens payload = match user_message payload with
                           | Convierte _ => 100%Z
                           | Interpreta _ => 200%Z
                           end
  | _ => True
  end.

(** A connection attempt made on behalf of [self]: to [self.db_url],
    with SSL required. *)
Definition configured_connect (self : SQLChatBot) (ev : event) : Prop :=
  match ev with
  | EvConnect dsn sslmode _ => dsn = db_url self ∧ sslmode = py "require"
  | _ => True
  end.

(** The answers of the handler. *)
Definition failure (code : Z) (msg : pystr) : FlaskResponse :=
  {| body := JObject {[ py "error" := JStr msg ]}; status := code |}.

Definition success (rows : list (gmap pystr json)) (detailed_response : json)
  : FlaskResponse :=
  {| body := JObject (<[ py "data" := JList (JObject <$> rows) ]>
                        {[ py "enhanced_response" := detailed_response ]});
     status := 200 |}.

(** * Properties *)

Arguments py : simpl never.
Arguments replace : simpl never.
Arguments get_sql_query_from_openai : simpl never.
Arguments execute_query : simpl never.
Arguments get_enhanced_response : simpl never.
Arguments query_database_try : simpl never.

(** ** Strings *)

Example py_ascii : py "sql" = [115; 113; 108]%N.
Proof. reflexivity. Qed.

Example py_latin : py "parámetro" = [112; 97; 114; 225; 109; 101; 116; 114; 111]%N.
Proof. reflexivity. Qed.

Example strip_example : strip (py "  SELECT 1;
 ") = py "SELECT 1;".
Proof. reflexivity. Qed.

Example replace_example : replace (py "ab") (py "-") (py "aababb") = py "a--b".
Proof. reflexivity. Qed.

Example replace_empty_example : replace [] (py "-") (py "abc") = py "-a-b-c-".
Proof. reflexivity. Qed.

(** Skipping [k] characters is scanning the rest of the string. *)
Lemma replace_from_skip old new k s :
  replace_from old new k s = replace_from old new 0 (drop k s).
Proof.
  revert k. induction s as [|c s IH]; intros [|k]; simpl; done.
Qed.

Section Replace.

Context (old new : pystr).

Hypothesis old_nonempty : old ≠ [].

Lemma replace_nil : replace old new [] = [].
Proof using old_nonempty. unfold replace. by destruct old. Qed.

(** At a match the occurrence is replaced and the scan resumes after
    it. *)
Lemma replace_match s :
  old `prefix_of` s →
  replace old new s = new ++ replace old new (drop (length old) s).
Proof using old_nonempty.
  unfold replace. destruct old as [|o old'] eqn:Hold; [done|].
  intros Hpre. destruct s as [|c s].
  { by apply prefix_nil_inv in Hpre. }
  simpl. rewrite decide_True by done.
  by rewrite Nat.sub_0_r, replace_from_skip.
Qed.

(** Elsewhere the character is kept. *)
Lemma replace_no_match c s :
  ¬ old `prefix_of` (c :: s) →
  replace old new (c :: s) = c :: replace old new s.
Proof using old_nonempty.
  unfold replace. destruct old as [|o old'] eqn:Hold; [done|].
  intros Hpre. simpl. by rewrite decide_False.
Qed.

End Replace.

Section RemoveTriple.

(** Removing the occurrences of [ccc] leaves no [ccc] behind. *)
Context (c : N).

Abbreviation triple := [c; c; c] (only parsing).

Lemma lead_ge_2 s : 2 ≤ lead c s → ∃ s', s = c :: c :: s'.
Proof.
  destruct s as [|x [|y s]]; simpl; repeat case_decide; subst; try lia; eauto.
Qed.

Lemma lead_remove_triple n s :
  length s ≤ n → lead c (replace triple [] s) ≤ lead c s.
Proof.
  revert s. induction n as [|n IH]; intros s Hlen.
  { destruct s; [|simpl in Hlen; lia]. by rewrite replace_nil. }
  destruct s as [|x s]; [by rewrite replace_nil|].
  destruct (decide (triple `prefix_of` x :: s)) as [Hpre|Hpre].
  - rewrite replace_match by done. destruct Hpre as [k Hk].
    rewrite Hk in *. rewrite drop_app_length. simpl in *.
    rewrite !decide_True by done.
    etrans; [apply IH|]; lia.
  - rewrite replace_no_match by done. simpl. case_decide; [|lia].
    apply le_n_S, IH. simpl in Hlen. lia.
Qed.

Lemma remove_triple_clean n s :
  length s ≤ n → ¬ occurs_in triple (replace triple [] s).
Proof.
  revert s. induction n as [|n IH]; intros s Hlen.
  { destruct s; [|simpl in Hlen; lia]. rewrite replace_nil by done.
    intros (a & b & Hab). by destruct a. }
  destruct s as [|x s].
  { rewrite replace_nil by done. intros (a & b & Hab). by destruct a. }
  simpl in Hlen.
  destruct (decide (triple `prefix_of` x :: s)) as [Hpre|Hpre].
  - rewrite replace_match by done. destruct Hpre as [k Hk].
    rewrite Hk. rewrite drop_app_length. simpl.
    apply IH. injection Hk as -> ->. simpl in Hlen. lia.
  - rewrite replace_no_match by done. intros (a & b & Hab).
    destruct a as [|y a]; simpl in Hab.
    + injection Hab as -> Hrest.
      destruct (lead_ge_2 s) as [s' ->].
      { etrans; [|apply (lead_remove_triple n); lia].
        rewrite Hrest. simpl. rewrite !decide_True by done. lia. }
      apply Hpre. by exists s'.
    + injection Hab as -> Hrest. apply (IH s); [lia|]. by exists a, b.
Qed.

End RemoveTriple.

(** No code-fence marker is left in the cleaned reply. *)
Lemma clean_sql_no_fence content : ¬ occurs_in fence (clean_sql content).
Proof. unfold clean_sql. eapply (remove_triple_clean 96). done. Qed.

Lemma clean_sql_no_fence_sql content : ¬ occurs_in fence_sql (clean_sql content).
Proof.
  intros (a & b & Hab). apply (clean_sql_no_fence content).
  exists a, (py "sql" ++ b). rewrite Hab. done.
Qed.

(** The cleaned reply may still carry surrounding white space: the
    reply is trimmed before the markers are removed. *)
Example clean_sql_fenced :
  clean_sql Sample.sql_reply = py "
SELECT * FROM usuarios WHERE edad > 30;
".
Proof. reflexivity. Qed.

(** ** The monad *)

Lemma run_eta {A} (r : run A) : Run (result r) (chatbot r) (effects r) = r.
Proof. by destruct r. Qed.

Section Bind.

Context {A B : Type} (m : M A) (f : A → M B) (self : SQLChatBot).

Lemma bind_return a :
  result (m self) = Return a →
  (m ≫= f) self =
    let r := f a (chatbot (m self)) in
    Run (result r) (chatbot r) (effects (m self) ++ effects r).
Proof.
  unfold mbind, M_bind. destruct (m self) as [res self' t]; simpl.
  by intros ->.
Qed.

Lemma bind_raise e :
  result (m self) = Raise e →
  (m ≫= f) self = Run (Raise e) (chatbot (m self)) (effects (m self)).
Proof.
  unfold mbind, M_bind. destruct (m self) as [res self' t]; simpl.
  by intros ->.
Qed.

End Bind.

Lemma eval_bind {A B} (o : outcome A) (f : A → M B) self :
  (eval o ≫= f) self =
    match o with
    | Return a => f a self
    | Raise e => Run (Raise e) self []
    end.
Proof.
  unfold mbind, M_bind, eval. destruct o as [a|e]; [|done].
  by destruct (f a self).
Qed.

Lemma ext_bind {A B} ev (o : outcome A) (f : A → M B) self :
  (ext ev o ≫= f) self =
    match o with
    | Return a =>
        let r := f a self in Run (result r) (chatbot r) (ev :: effects r)
    | Raise e => Run (Raise e) self [ev]
    end.
Proof. unfold mbind, M_bind, ext. by destruct o. Qed.

Lemma self_get_bind {B} (f : SQLChatBot → M B) self :
  (self_get ≫= f) self = f self self.
Proof. unfold mbind, M_bind, self_get. by destruct (f self self). Qed.

(** *** What a computation may emit *)

Section Emits.

Context (P : event → Prop).

Lemma emits_mret {A} (a : A) : emits P (mret a).
Proof. intros self. constructor. Qed.

Lemma emits_eval {A} (o : outcome A) : emits P (eval o).
Proof. intros self. constructor. Qed.

Lemma emits_self_get : emits P self_get.
Proof. intros self. constructor. Qed.

Lemma emits_ext {A} ev (o : outcome A) : P ev → emits P (ext ev o).
Proof. intros Hev self. by repeat constructor. Qed.

Lemma emits_print msg : P (EvPrint msg) → emits P (print msg).
Proof. apply emits_ext. Qed.

Lemma emits_bind {A B} (m : M A) (f : A → M B) :
  emits P m → (∀ a, emits P (f a)) → emits P (m ≫= f).
Proof.
  intros Hm Hf self. specialize (Hm self).
  unfold mbind, M_bind. destruct (m self) as [[a|e] self' t]; simpl in *; [|done].
  apply Forall_app. split; [done|apply Hf].
Qed.

Lemma emits_try_except {A} (body : M A) catches handler :
  emits P body → (∀ e, emits P (handler e)) →
  emits P (try_except body catches handler).
Proof.
  intros Hb Hh self. specialize (Hb self).
  unfold try_except. destruct (body self) as [[a|e] self' t]; simpl in *; [done|].
  destruct (catches e); simpl; [|done].
  apply Forall_app. split; [done|apply Hh].
Qed.

Lemma emits_with_cursor {A} (body : M A) :
  P EvCursor → P EvCursorClose → emits P body → emits P (with_cursor body).
Proof.
  intros Ho Hc Hb self. unfold with_cursor. simpl.
  constructor; [done|]. apply Forall_app. split; [apply Hb|by repeat constructor].
Qed.

Lemma emits_if {A} (b : bool) (m1 m2 : M A) :
  emits P m1 → emits P m2 → emits P (if b then m1 else m2).
Proof. by destruct b. Qed.

End Emits.

Ltac solve_emits :=
  repeat
    (intros;
     lazymatch goal with
     | |- emits _ (let _ := _ in _) => cbv zeta
     | |- emits _ (match ?x with _ => _ end) => destruct x
     | |- emits _ (_ ≫= _) => apply emits_bind
     | |- emits _ (try_except _ _ _) => apply emits_try_except
     | |- emits _ (with_cursor _) => apply emits_with_cursor
     | |- emits _ (mret _) => apply emits_mret
     | |- emits _ (eval _) => apply emits_eval
     | |- emits _ self_get => apply emits_self_get
     | |- emits _ (print _) => apply emits_print
     | |- emits _ (ext _ _) => apply emits_ext
     | |- _ => done
     end).

(** The generator talks to the provider and the console only, and
    never as the explainer. *)
Lemma get_sql_query_from_openai_emits E user_input :
  emits (λ ev, is_db_event ev = false ∧ is_explain_post ev = false)
        (get_sql_query_from_openai E user_input).
Proof. unfold get_sql_query_from_openai. solve_emits. Qed.

(** The gateway talks to the database and the console only. *)
Lemma execute_query_emits E sql_query :
  emits (λ ev, is_post ev = false) (execute_query E sql_query).
Proof. unfold execute_query, connect_db. solve_emits. Qed.

(** The explainer never touches the database. *)
Lemma get_enhanced_response_emits E query_result :
  emits (λ ev, is_db_event ev = false) (get_enhanced_response E query_result).
Proof. unfold get_enhanced_response. solve_emits. Qed.

Lemma not_post_not_explain ev : is_post ev = false → is_explain_post ev = false.
Proof. by destruct ev. Qed.

(** *** What a computation does to the shared instance *)

Section Preserves.

Lemma preserves_mret {A} (a : A) : preserves_self (mret a).
Proof. done. Qed.

Lemma preserves_eval {A} (o : outcome A) : preserves_self (eval o).
Proof. done. Qed.

Lemma preserves_ext {A} ev (o : outcome A) : preserves_self (ext ev o).
Proof. done. Qed.

Lemma preserves_self_get : preserves_self self_get.
Proof. done. Qed.

Lemma preserves_bind {A B} (m : M A) (f : A → M B) :
  preserves_self m → (∀ a, preserves_self (f a)) → preserves_self (m ≫= f).
Proof.
  intros Hm Hf self. specialize (Hm self).
  unfold mbind, M_bind. destruct (m self) as [[a|e] self' t]; simpl in *; [|done].
  subst self'. apply Hf.
Qed.

Lemma preserves_try_except {A} (body : M A) catches handler :
  preserves_self body → (∀ e, preserves_self (handler e)) →
  preserves_self (try_except body catches handler).
Proof.
  intros Hb Hh self. specialize (Hb self).
  unfold try_except. destruct (body self) as [[a|e] self' t]; simpl in *; [done|].
  destruct (catches e); simpl; [|done]. subst self'. apply Hh.
Qed.

Lemma preserves_with_cursor {A} (body : M A) :
  preserves_self body → preserves_self (with_cursor body).
Proof. intros Hb self. apply Hb. Qed.

End Preserves.

Ltac solve_preserves :=
  repeat
    (intros;
     lazymatch goal with
     | |- preserves_self (let _ := _ in _) => cbv zeta
     | |- preserves_self (match ?x with _ => _ end) => destruct x
     | |- preserves_self (_ ≫= _) => apply preserves_bind
     | |- preserves_self (try_except _ _ _) => apply preserves_try_except
     | |- preserves_self (with_cursor _) => apply preserves_with_cursor
     | |- preserves_self (mret _) => apply preserves_mret
     | |- preserves_self (eval _) => apply preserves_eval
     | |- preserves_self self_get => apply preserves_self_get
     | |- preserves_self (print _) => apply preserves_ext
     | |- preserves_self (ext _ _) => apply preserves_ext
     end).

Lemma connect_db_preserves E : preserves_self (connect_db E).
Proof. unfold connect_db. solve_preserves. Qed.

Lemma execute_query_preserves E sql_query : preserves_self (execute_query E sql_query).
Proof. unfold execute_query, connect_db. solve_preserves. Qed.

Lemma get_sql_query_from_openai_preserves E user_input :
  preserves_self (get_sql_query_from_openai E user_input).
Proof. unfold get_sql_query_from_openai. solve_preserves. Qed.

Lemma get_enhanced_response_preserves E query_result :
  preserves_self (get_enhanced_response E query_result).
Proof. unfold get_enhanced_response. solve_preserves. Qed.

(** The constructor, by contrast, writes both attributes. *)
Example new_SQLChatBot_reads_environment :
  new_SQLChatBot {[ py "DATABASE_URL" := py "postgres://db" ]}
  = {| db_url := Some (py "postgres://db"); openai_api_key := None |}.
Proof. reflexivity. Qed.

(** ** The runs of the program, step by step *)

(** The gateway, in terms of the answers of the driver. *)
Lemma execute_query_run E sql_query self :
  execute_query E sql_query self =
    let dsn := db_url self in
    let ssl := py "require" in
    match psycopg2_connect E dsn ssl with
    | Raise e =>
        if is_psycopg2_error e
        then Run (Return (None, Some (py "No se pudo conectar a la base de datos.")))
                 self [EvConnect dsn ssl false; EvPrint (MsgConnectError e)]
        else Run (Raise e) self [EvConnect dsn ssl false]
    | Return _ =>
        match cursor_execute E sql_query with
        | Raise e =>
            let t := [EvConnect dsn ssl true; EvCursor; EvExecute sql_query;
                      EvCursorClose] in
            if is_psycopg2_error e
            then Run (Return (None, Some (py "Error en la base de datos: " ++ exn_str e)))
                     self t
            else Run (Raise e) self t
        | Return _ =>
            match cursor_fetchall E sql_query with
            | Raise e =>
                let t := [EvConnect dsn ssl true; EvCursor; EvExecute sql_query;
                          EvFetchall; EvCursorClose] in
                if is_psycopg2_error e
                then Run (Return (None, Some (py "Error en la base de datos: " ++ exn_str e)))
                         self t
                else Run (Raise e) self t
            | Return result =>
                match cursor_description E sql_query with
                | None =>
                    Run (Raise (Exn TypeError (py "'NoneType' object is not iterable")))
                        self
                        [EvConnect dsn ssl true; EvCursor; EvExecute sql_query;
                         EvFetchall; EvCursorClose]
                | Some descs =>
                    Run (Return (Some ((λ row, dict (zip (name <$> descs) row)) <$> result),
                                 None))
                        self
                        [EvConnect dsn ssl true; EvCursor; EvExecute sql_query;
                         EvFetchall; EvCursorClose; EvClose]
                end
            end
        end
    end.
Proof.
  unfold execute_query, connect_db, try_except, with_cursor, mbind, M_bind,
    self_get, ext, eval, print, mret, M_ret; simpl.
  destruct (psycopg2_connect E _ _) as [conn|e]; simpl.
  2: { by destruct (is_psycopg2_error e). }
  destruct (cursor_execute E _) as [[]|e]; simpl.
  2: { by destruct (is_psycopg2_error e). }
  destruct (cursor_fetchall E _) as [result|e]; simpl.
  2: { by destruct (is_psycopg2_error e). }
  by destruct (cursor_description E _) as [descs|]; simpl.
Qed.

(** The [try] block of the handler, in terms of the runs of its three
    steps. *)
Lemma query_database_try_run E user_input self :
  query_database_try E user_input self =
    let failure msg := with_status (jsonify (error_body (JStr msg))) 500 in
    let r1 := get_sql_query_from_openai E user_input self in
    match result r1 with
    | Raise e =>
        Run (Return (failure (py "Error general: " ++ exn_str e)))
            (chatbot r1) (effects r1)
    | Return sql_query =>
        let t1 := effects r1 ++ [EvPrint (MsgGeneratedQuery sql_query)] in
        if negb (truthy_str sql_query) then
          Run (Return (failure (py "No se pudo generar la consulta SQL")))
              (chatbot r1) t1
        else
          let r2 := execute_query E (default [] sql_query) (chatbot r1) in
          match result r2 with
          | Raise e =>
              Run (Return (failure (py "Error general: " ++ exn_str e)))
                  (chatbot r2) (t1 ++ effects r2)
          | Return (results, db_error) =>
              if truthy_str db_error then
                Run (Return (with_status (jsonify (error_body (json_of_str db_error))) 500))
                    (chatbot r2) (t1 ++ effects r2)
              else
                let r3 := get_enhanced_response E results (chatbot r2) in
                match result r3 with
                | Raise e =>
                    Run (Return (failure (py "Error general: " ++ exn_str e)))
                        (chatbot r3) (t1 ++ effects r2 ++ effects r3)
                | Return detailed_response =>
                    match json_of_results results with
                    | Raise e =>
                        Run (Return (failure (py "Error general: " ++ exn_str e)))
                            (chatbot r3) (t1 ++ effects r2 ++ effects r3)
                    | Return data =>
                        Run (Return
                               (jsonify (JObject
                                  (<[ py "data" := data ]>
                                     {[ py "enhanced_response" := detailed_response ]}))))
                            (chatbot r3) (t1 ++ effects r2 ++ effects r3)
                    end
                end
          end
    end.
Proof.
  unfold query_database_try, try_except, print, ext, mbind, M_bind, mret, M_ret,
    is_exception.
  cbv zeta.
  destruct (get_sql_query_from_openai E user_input self)
    as [[sql_query|e] self1 t1]; cbn; [|by rewrite app_nil_r].
  destruct (truthy_str sql_query); cbn; [|done].
  destruct (execute_query E (default [] sql_query) self1)
    as [[[results db_error]|e] self2 t2]; cbn.
  2: { by rewrite app_nil_r, <- !app_assoc. }
  destruct (truthy_str db_error); cbn.
  { by rewrite app_nil_r, <- !app_assoc. }
  destruct (get_enhanced_response E results self2)
    as [[detailed|e] self3 t3]; cbn.
  - unfold eval. destruct (json_of_results results) as [data|e]; cbn;
      by rewrite ?app_nil_r, <- !app_assoc.
  - by rewrite app_nil_r, <- !app_assoc.
Qed.

(** The handler, in terms of the request and of its [try] block. *)
Lemma query_database_run E request self :
  query_database E request self =
    match request_json request with
    | Raise e => Run (Raise e) self []
    | Return data =>
        match dict_get data (py "userInput") with
        | Raise e => Run (Raise e) self []
        | Return user_input =>
            if negb (truthy user_input) then
              Run (Return (with_status
                     (jsonify (error_body (JStr (py "Falta el parámetro 'userInput'"))))
                     400)) self []
            else query_database_try E user_input self
        end
    end.
Proof.
  unfold query_database. rewrite eval_bind.
  destruct (request_json request) as [data|e]; [|done].
  rewrite eval_bind.
  destruct (dict_get data _) as [user_input|e]; [|done].
  by destruct (truthy user_input).
Qed.

(** ** The database gateway *)

(** The keys of [dict(pairs)] are the first components of [pairs]. *)
Lemma dom_dict pairs : dom (dict pairs) =@{gset pystr} list_to_set pairs.*1.
Proof.
  unfold dict.
  assert (∀ m : row,
    dom (foldl (λ m kv, <[kv.1 := kv.2]> m) m pairs)
    =@{gset pystr} dom m ∪ list_to_set pairs.*1) as Hgen.
  { induction pairs as [|[k v] pairs IH]; intros m; simpl.
    - set_solver.
    - rewrite IH, dom_insert_L. set_solver. }
  rewrite Hgen, dom_empty_L. set_solver.
Qed.

(** A record built from a row as long as the column list has exactly
    the columns as keys. *)
Lemma dom_dict_zip (columns : list pystr) (cells : list cell) :
  length cells = length columns →
  dom (dict (zip columns cells)) =@{gset pystr} list_to_set columns.
Proof. intros Hlen. rewrite dom_dict, fst_zip; [done|lia]. Qed.

(** With a column named twice the later cell wins and the key set is
    still the set of column names. *)
Example dict_duplicate_column :
  dict (zip [py "id"; py "id"] [Cell (JInt 1); Cell (JInt 2)])
  = {[ py "id" := Cell (JInt 2) ]}.
Proof. reflexivity. Qed.

(** Rows in which no cell is offending have a JSON form cell by
    cell. *)
Lemma offending_None (rows : list row) :
  offending rows = None →
  Forall (λ r : row, ∀ k c, r !! k = Some c → ∃ v, c = Cell v) rows.
Proof.
  unfold offending. induction rows as [|r rows IH]; intros Hnone; [constructor|].
  simpl in Hnone. apply head_None, app_eq_nil in Hnone as [Hr Hrows].
  constructor.
  - intros k c Hk. destruct c as [v|type_name]; [by exists v|exfalso].
    apply elem_of_map_to_list in Hk.
    assert (Unserializable type_name ∈ (map_to_list r).*2) as Hin.
    { apply list_elem_of_fmap. by exists (k, Unserializable type_name). }
    revert Hr Hin. generalize ((map_to_list r).*2). intros l.
    induction l as [|c l IHl]; intros Hl Hin; [by apply elem_of_nil in Hin|].
    simpl in Hl. apply app_eq_nil in Hl as [Hc Hl].
    apply elem_of_cons in Hin as [<-|Hin]; [done|by apply IHl].
  - apply IH, head_None. exact Hrows.
Qed.

Lemma dom_json_of_row (r : row) :
  (∀ k c, r !! k = Some c → ∃ v, c = Cell v) →
  dom (json_of_row r) =@{gset pystr} dom r.
Proof.
  intros Hcells. apply set_eq. intros k. rewrite !elem_of_dom.
  unfold json_of_row. rewrite lookup_omap.
  destruct (r !! k) as [c|] eqn:Hk; simpl.
  - destruct (Hcells k c Hk) as [v ->]. simpl. split; eauto.
  - split; by intros [? ?].
Qed.

(** When [jsonify] accepts the rows, none of their cells is offending
    and their JSON form is the list of the JSON forms of the records. *)
Lemma json_of_results_rows (rows : list row) data :
  json_of_results (Some rows) = Return data →
  offending rows = None ∧ data = JList (JObject <$> (json_of_row <$> rows)).
Proof.
  unfold json_of_results. destruct (offending rows); [done|]. by intros [= <-].
Qed.

(** What the gateway returns, when it returns: rows and no error, or
    no rows and a non-empty error. *)
Lemma execute_query_returns E sql_query self results db_error :
  result (execute_query E sql_query self) = Return (results, db_error) →
  (∃ rows descs,
      cursor_fetchall E sql_query = Return rows ∧
      cursor_description E sql_query = Some descs ∧
      results = Some ((λ cells, dict (zip (name <$> descs) cells)) <$> rows) ∧
      db_error = None ∧
      EvExecute sql_query ∈ effects (execute_query E sql_query self) ∧
      EvClose ∈ effects (execute_query E sql_query self))
  ∨ (∃ err, results = None ∧ db_error = Some err ∧ truthy_str db_error = true).
Proof.
  rewrite execute_query_run. cbv zeta.
  destruct (psycopg2_connect E _ _) as [conn|e].
  2: { destruct (is_psycopg2_error e); [|done].
       intros [= <- <-]. right. eexists. by vm_compute. }
  destruct (cursor_execute E _) as [[]|e].
  2: { destruct (is_psycopg2_error e); [|done].
       intros [= <- <-]. right. eexists. by vm_compute. }
  destruct (cursor_fetchall E _) as [rows|e].
  2: { destruct (is_psycopg2_error e); [|done].
       intros [= <- <-]. right. eexists. by vm_compute. }
  destruct (cursor_description E _) as [descs|]; [|done].
  intros [= <- <-]. left. exists rows, descs. cbn.
  repeat split; rewrite ?elem_of_cons; naive_solver.
Qed.

(** On the success path the connection is closed before the rows are
    returned. *)
Lemma execute_query_closes_on_success E sql_query self rows :
  result (execute_query E sql_query self) = Return (Some rows, None) →
  EvClose ∈ effects (execute_query E sql_query self).
Proof.
  intros Hres. apply execute_query_returns in Hres as [Hok|(err & ? & ? & ?)].
  - naive_solver.
  - done.
Qed.

(** On the database-error path [conn.close()] is not reached. *)
Lemma execute_query_leaves_open_on_error E sql_query self conn e :
  psycopg2_connect E (db_url self) (py "require") = Return conn →
  cursor_execute E sql_query = Raise e →
  is_psycopg2_error e = true →
  let r := execute_query E sql_query self in
  result r = Return (None, Some (py "Error en la base de datos: " ++ exn_str e)) ∧
  opens_connection (effects r) ∧
  EvClose ∉ effects r.
Proof.
  intros Hconn Hexec Hcls. cbv zeta. rewrite execute_query_run. cbv zeta.
  rewrite Hconn, Hexec, Hcls. cbn. split; [done|]. split.
  - eexists _, _. apply list_elem_of_here.
  - rewrite !elem_of_cons, elem_of_nil. naive_solver.
Qed.

(** C3 (code defect).  A call in which the connection is opened and
    the statement is rejected by the database: [execute_query] returns
    the error string, and its interactions are connect, open cursor,
    execute, close cursor; [conn.close()] is never called, so the
    connection is still open when the function returns. *)
Theorem execute_query_error_leaks_connection :
  let r := execute_query Sample.bad_sql (py "SELEC 1") Sample.bot in
  result r = Return (None, Some (py "Error en la base de datos: syntax error at or near SELEC")) ∧
  effects r = [EvConnect (db_url Sample.bot) (py "require") true;
               EvCursor; EvExecute (py "SELEC 1"); EvCursorClose] ∧
  opens_connection (effects r) ∧
  EvClose ∉ effects r.
Proof.
  cbv zeta.
  assert (execute_query Sample.bad_sql (py "SELEC 1") Sample.bot
          = Run (Return (None, Some (py "Error en la base de datos: syntax error at or near SELEC")))
                Sample.bot
                [EvConnect (db_url Sample.bot) (py "require") true;
                 EvCursor; EvExecute (py "SELEC 1"); EvCursorClose]) as ->
    by (vm_compute; reflexivity).
  unfold result, effects.
  split; [reflexivity|]. split; [reflexivity|]. split.
  - eexists _, _. apply list_elem_of_here.
  - intros Hin. repeat (apply elem_of_cons in Hin as [Hin|Hin]; [discriminate|]).
    by apply elem_of_nil in Hin.
Qed.

(** ** The LLM query generator *)

Section Generator.

Context (E : Env) (user_input : json) (self : SQLChatBot) (response : Response).

Local Abbreviation headers := (py "Bearer " ++ str_of_option (openai_api_key self)).
Local Abbreviation payload :=
  {| model := py "gpt-4-turbo";
     system_content := sql_system_content;
     user_message := Convierte user_input;
     max_tokens := 100 |}.

Hypothesis posted :
  requests_post E completions_url payload headers = Return response.

(** Status 200 and a reply whose first choice has a string content:
    the content, trimmed and then freed of the fence markers. *)
Lemma get_sql_query_from_openai_success body choices choice message content :
  status_code response = 200%Z →
  Response_json response = Return body →
  getitem_key body (py "choices") = Return choices →
  getitem_0 choices = Return choice →
  getitem_key choice (py "message") = Return message →
  getitem_key message (py "content") = Return (JStr content) →
  result (get_sql_query_from_openai E user_input self)
  = Return (Some (replace (py "```") [] (replace (py "```sql") [] (strip content)))).
Proof using posted.
  intros Hstatus Hbody Hchoices Hchoice Hmessage Hcontent.
  unfold get_sql_query_from_openai.
  rewrite self_get_bind, ext_bind, posted.
  rewrite Hstatus. cbn [Z.eqb Pos.eqb result].
  rewrite eval_bind, Hbody, eval_bind, Hchoices, eval_bind, Hchoice,
    eval_bind, Hmessage, eval_bind, Hcontent, eval_bind.
  reflexivity.
Qed.

(** Another status and a JSON body: [None]. *)
Lemma get_sql_query_from_openai_refused body :
  status_code response ≠ 200%Z →
  Response_json response = Return body →
  get_sql_query_from_openai E user_input self
  = Run (Return None) self
        [EvPost completions_url payload headers; EvPrint (MsgOpenAIError body)].
Proof using posted.
  intros Hstatus Hbody. apply Z.eqb_neq in Hstatus.
  unfold get_sql_query_from_openai.
  rewrite self_get_bind, ext_bind, posted.
  rewrite Hstatus. rewrite eval_bind, Hbody. reflexivity.
Qed.

(** Another status and a body that is not JSON: the exception of
    [response.json()], evaluated for the console message, leaves the
    function. *)
Lemma get_sql_query_from_openai_undecodable e :
  status_code response ≠ 200%Z →
  Response_json response = Raise e →
  get_sql_query_from_openai E user_input self
  = Run (Raise e) self [EvPost completions_url payload headers].
Proof using posted.
  intros Hstatus Hbody. apply Z.eqb_neq in Hstatus.
  unfold get_sql_query_from_openai.
  rewrite self_get_bind, ext_bind, posted.
  rewrite Hstatus. rewrite eval_bind, Hbody. reflexivity.
Qed.

End Generator.

(** C8 (code defect).  The provider is answered for by a gateway: status
    502 and an HTML body.  [get_sql_query_from_openai] does not return
    [None]: formatting the console message evaluates [response.json()],
    which raises, and the exception leaves the function. *)
Theorem get_sql_query_from_openai_raises_on_html_error :
  status_code Sample.bad_gateway ≠ 200%Z ∧
  result (get_sql_query_from_openai Sample.generator_gateway Sample.question Sample.bot)
  = Raise Sample.decode_error ∧
  result (get_sql_query_from_openai Sample.generator_gateway Sample.question Sample.bot)
  ≠ Return None.
Proof.
  split; [done|].
  assert (result (get_sql_query_from_openai Sample.generator_gateway
                    Sample.question Sample.bot)
          = Raise Sample.decode_error)
    as -> by (vm_compute; reflexivity).
  done.
Qed.

(** The two halves of the contract that do hold, on the sample worlds. *)
Example get_sql_query_from_openai_happy :
  result (get_sql_query_from_openai Sample.happy Sample.question Sample.bot)
  = Return (Some (py "
SELECT * FROM usuarios WHERE edad > 30;
")).
Proof. vm_compute. reflexivity. Qed.

Example get_sql_query_from_openai_down :
  result (get_sql_query_from_openai Sample.generator_down Sample.question Sample.bot)
  = Return None.
Proof. vm_compute. reflexivity. Qed.

(** ** Calls leave a trace *)

(** Every call of the gateway starts by asking the driver for a
    connection, and every call of the explainer starts by posting its
    request: a run without such an interaction did not make the call. *)
Lemma execute_query_always_connects E sql_query self :
  ∃ opened t,
    effects (execute_query E sql_query self)
    = EvConnect (db_url self) (py "require") opened :: t ∧
    is_db_event (EvConnect (db_url self) (py "require") opened) = true.
Proof.
  rewrite execute_query_run. cbv zeta.
  repeat case_match; cbn [effects]; eauto.
Qed.

Lemma get_enhanced_response_always_posts E query_result self :
  ∃ ev t,
    effects (get_enhanced_response E query_result self) = ev :: t ∧
    is_explain_post ev = true.
Proof.
  unfold get_enhanced_response. rewrite self_get_bind, ext_bind.
  destruct (requests_post E _ _ _) as [response|e]; cbn [effects]; eauto.
Qed.

(** ** The handler *)

(** *** Validation of the input *)

(** C2, as the code has it.  A request whose body is a JSON object
    without the key [userInput] is answered 400 with the
    missing-parameter message, not 500. *)
Theorem missing_userInput_is_400 (E : Env) (request : Request) (self : SQLChatBot)
    (m : gmap pystr json) :
  request_json request = Return (JObject m) →
  m !! py "userInput" = None →
  ∃ resp,
    query_database E request self = Run (Return resp) self [] ∧
    status resp = 400%Z ∧
    status resp ≠ 500%Z ∧
    body resp = error_body (JStr (py "Falta el parámetro 'userInput'")).
Proof.
  intros Hjson Hkey. rewrite query_database_run, Hjson. cbn [dict_get].
  rewrite Hkey. cbn [default truthy negb].
  eexists. split; [reflexivity|]. done.
Qed.

Lemma missing_userInput_is_400_witness :
  ∃ resp,
    query_database Sample.happy Sample.empty_request Sample.bot
    = Run (Return resp) Sample.bot [] ∧
    status resp = 400%Z ∧
    status resp ≠ 500%Z ∧
    body resp = error_body (JStr (py "Falta el parámetro 'userInput'")).
Proof.
  apply (missing_userInput_is_400 Sample.happy Sample.empty_request Sample.bot ∅);
    reflexivity.
Defined.

(** C2, as the specification has it, fails on a body that is JSON but
    not an object: the body [null] has no [userInput] field, yet
    [data.get] raises on it before the [try] block, the exception
    leaves the handler and no 400 answer is produced. *)
Lemma missing_userInput_in_null_body_escapes :
  request_json Sample.null_request = Return JNull ∧
  result (query_database Sample.happy Sample.null_request Sample.bot)
  = Raise (Exn AttributeError (py "'NoneType' object has no attribute 'get'")) ∧
  ¬ ∃ resp,
      result (query_database Sample.happy Sample.null_request Sample.bot) = Return resp ∧
      status resp = 400%Z.
Proof.
  assert (result (query_database Sample.happy Sample.null_request Sample.bot)
          = Raise (Exn AttributeError (py "'NoneType' object has no attribute 'get'")))
    as -> by (vm_compute; reflexivity).
  split_and!; [done..|]. by intros (resp & ? & _).
Qed.

(** C10.  A [userInput] that is the empty string or null is answered
    like an absent one: 400 with the missing-parameter message, and no
    interaction with the provider or the database. *)
Theorem falsy_userInput_is_400 (E : Env) (request : Request) (self : SQLChatBot)
    (m : gmap pystr json) (v : json) :
  request_json request = Return (JObject m) →
  m !! py "userInput" = Some v →
  v = JStr [] ∨ v = JNull →
  query_database E request self
  = Run (Return
           (with_status
              (jsonify (error_body (JStr (py "Falta el parámetro 'userInput'")))) 400))
        self [] ∧
  query_database E request self
  = query_database E {| request_json := Return (JObject (delete (py "userInput") m)) |}
      self.
Proof.
  intros Hjson Hkey Hv. rewrite !query_database_run, Hjson.
  cbn [dict_get request_json]. rewrite Hkey, lookup_delete_eq.
  by destruct Hv as [-> | ->].
Qed.

Lemma falsy_userInput_is_400_witness :
  query_database Sample.happy Sample.blank_request Sample.bot
  = Run (Return
           (with_status
              (jsonify (error_body (JStr (py "Falta el parámetro 'userInput'")))) 400))
        Sample.bot [] ∧
  query_database Sample.happy Sample.blank_request Sample.bot
  = query_database Sample.happy
      {| request_json :=
           Return (JObject (delete (py "userInput") {[ py "userInput" := JStr [] ]})) |}
      Sample.bot.
Proof.
  apply (falsy_userInput_is_400 Sample.happy Sample.blank_request Sample.bot
           {[ py "userInput" := JStr [] ]} (JStr []));
    [reflexivity | vm_compute; reflexivity | by left].
Defined.

(** *** Generation failure *)

(** C4.  When the generator returns [None] or the empty string the
    answer is 500 and the database driver is not used. *)
Theorem no_sql_is_500_without_database E request self data user_input sql_query :
  request_json request = Return data →
  dict_get data (py "userInput") = Return user_input →
  truthy user_input = true →
  result (get_sql_query_from_openai E user_input self) = Return sql_query →
  sql_query = None ∨ sql_query = Some [] →
  let r := query_database E request self in
  result r = Return {| body := error_body (JStr (py "No se pudo generar la consulta SQL"));
                       status := 500 |} ∧
  Forall (λ ev, is_db_event ev = false) (effects r).
Proof.
  intros Hjson Hget Htruthy Hgen Hsql. cbv zeta.
  rewrite query_database_run, Hjson, Hget, Htruthy. cbn [negb].
  rewrite query_database_try_run. cbv zeta. rewrite Hgen.
  assert (truthy_str sql_query = false) as -> by (by destruct Hsql as [-> | ->]).
  cbn [negb result effects]. split; [done|].
  apply Forall_app. split.
  - eapply Forall_impl; [apply get_sql_query_from_openai_emits|]. by intros ev [? _].
  - by repeat constructor.
Qed.

Lemma no_sql_is_500_without_database_witness :
  let r := query_database Sample.generator_down Sample.good_request Sample.bot in
  result r = Return {| body := error_body (JStr (py "No se pudo generar la consulta SQL"));
                       status := 500 |} ∧
  Forall (λ ev, is_db_event ev = false) (effects r).
Proof.
  apply (no_sql_is_500_without_database Sample.generator_down Sample.good_request
           Sample.bot (JObject {[ py "userInput" := Sample.question ]})
           Sample.question None);
    first [by left | vm_compute; reflexivity].
Defined.

(** *** Database failure *)

(** C1.  When the gateway returns an error string the answer is 500
    with exactly that string, and the explainer is not called. *)
Theorem database_error_is_reported
    E request self data user_input sql_query results err :
  request_json request = Return data →
  dict_get data (py "userInput") = Return user_input →
  truthy user_input = true →
  let r1 := get_sql_query_from_openai E user_input self in
  result r1 = Return sql_query →
  truthy_str sql_query = true →
  result (execute_query E (default [] sql_query) (chatbot r1))
  = Return (results, Some err) →
  let r := query_database E request self in
  result r = Return {| body := error_body (JStr err); status := 500 |} ∧
  Forall (λ ev, is_explain_post ev = false) (effects r).
Proof.
  intros Hjson Hget Htruthy r1 Hgen Hsql Hexec. cbv zeta. subst r1.
  rewrite query_database_run, Hjson, Hget, Htruthy. cbn [negb].
  rewrite query_database_try_run. cbv zeta. rewrite Hgen, Hsql. cbn [negb].
  rewrite Hexec.
  assert (truthy_str (Some err) = true) as ->.
  { apply execute_query_returns in Hexec as [(? & ? & ? & ? & ? & ? & _)|(? & ? & ? & ?)];
      [done|congruence]. }
  cbn [result effects json_of_str]. split; [done|].
  rewrite !Forall_app. split_and!.
  - eapply Forall_impl; [apply get_sql_query_from_openai_emits|]. by intros ev [_ ?].
  - by repeat constructor.
  - eapply Forall_impl; [apply execute_query_emits|]. apply not_post_not_explain.
Qed.

Lemma database_error_is_reported_witness :
  let r := query_database Sample.bad_sql Sample.good_request Sample.bot in
  result r
  = Return {| body := error_body
                (JStr (py "Error en la base de datos: syntax error at or near SELEC"));
              status := 500 |} ∧
  Forall (λ ev, is_explain_post ev = false) (effects r).
Proof.
  apply (database_error_is_reported Sample.bad_sql Sample.good_request Sample.bot
           (JObject {[ py "userInput" := Sample.question ]}) Sample.question
           (Some (py "SELEC 1")) None);
    vm_compute; reflexivity.
Defined.

(** *** Explanation failure *)




(** *** Exceptions *)

(** C6, as the code has it.  An exception that leaves SQL generation,
    query execution or explanation is turned into a 500 answer whose
    [error] field is "Error general: " followed by the text of the
    exception. *)
Theorem exception_in_try_is_500 E request self data user_input e :
  request_json request = Return data →
  dict_get data (py "userInput") = Return user_input →
  truthy user_input = true →
  step_raises E user_input self e →
  result (query_database E request self)
  = Return {| body := error_body (JStr (py "Error general: " ++ exn_str e));
              status := 500 |}.
Proof.
  intros Hjson Hget Htruthy Hstep.
  rewrite query_database_run, Hjson, Hget, Htruthy. cbn [negb].
  rewrite query_database_try_run. cbv zeta.
  destruct Hstep as [Hgen | sql_query r1 Hgen Hsql Hexec
                    | sql_query results db_error r1 Hgen Hsql r2 Hexec Herr Hexplain].
  - by rewrite Hgen.
  - subst r1. rewrite Hgen, Hsql. cbn [negb]. by rewrite Hexec.
  - subst r1 r2. rewrite Hgen, Hsql. cbn [negb]. rewrite Hexec, Herr.
    by rewrite Hexplain.
Qed.

Lemma exception_in_try_is_500_witness :
  result (query_database Sample.explainer_gateway Sample.good_request Sample.bot)
  = Return {| body := error_body
                (JStr (py "Error general: " ++ exn_str Sample.decode_error));
              status := 500 |}.
Proof.
  apply (exception_in_try_is_500 Sample.explainer_gateway Sample.good_request
           Sample.bot (JObject {[ py "userInput" := Sample.question ]}) Sample.question
           Sample.decode_error);
    [reflexivity | vm_compute; reflexivity | reflexivity |].
  apply (raises_in_explanation _ _ _ _ (Some (clean_sql Sample.sql_reply))
           (Some ((λ cells, dict (zip (name <$> Sample.usuarios_description) cells))
                  <$> Sample.usuarios_rows))
           None);
    vm_compute; reflexivity.
Defined.

(** C6, as the specification has it, fails at input parsing: the body
    [[]] makes [data.get] raise before the [try] block is entered, and
    the exception leaves the handler instead of becoming an answer. *)
Lemma exception_in_parsing_escapes :
  result (query_database Sample.happy Sample.list_request Sample.bot)
  = Raise (Exn AttributeError (py "'list' object has no attribute 'get'")) ∧
  ¬ ∃ resp,
      result (query_database Sample.happy Sample.list_request Sample.bot) = Return resp.
Proof.
  assert (result (query_database Sample.happy Sample.list_request Sample.bot)
          = Raise (Exn AttributeError (py "'list' object has no attribute 'get'")))
    as -> by (vm_compute; reflexivity).
  split; [done|]. by intros [resp ?].
Qed.

(** *** Shape of a successful answer *)

(** C7.  In a successful answer [data] is a list of records that all
    have the same keys: the column names of the description of the
    cursor that executed the statement. *)
Theorem success_data_has_uniform_schema E request self resp :
  driver_rows_match_description E →
  let r := query_database E request self in
  result r = Return resp →
  status resp = 200%Z →
  ∃ sql_query descs (records : list (gmap pystr json)) (m : gmap pystr json),
    EvExecute sql_query ∈ effects r ∧
    cursor_description E sql_query = Some descs ∧
    body resp = JObject m ∧
    m !! py "data" = Some (JList (JObject <$> records)) ∧
    Forall (λ record : gmap pystr json,
              dom record =@{gset pystr} list_to_set (name <$> descs))
           records.
Proof.
  intros Hdriver. cbv zeta. rewrite query_database_run.
  destruct (request_json request) as [data|?]; [|done].
  destruct (dict_get data _) as [user_input|?]; [|done].
  destruct (truthy user_input); cbn [negb].
  2: { cbn [result]. by intros [= <-]. }
  rewrite query_database_try_run. cbv zeta.
  destruct (result (get_sql_query_from_openai E user_input self))
    as [sql_query|?]; [|by intros [= <-]].
  destruct (truthy_str sql_query); cbn [negb]; [|by intros [= <-]].
  set (r1 := get_sql_query_from_openai E user_input self).
  set (sql := default [] sql_query).
  destruct (result (execute_query E sql (chatbot r1)))
    as [[results db_error]|?] eqn:Hexec; [|by intros [= <-]].
  destruct (truthy_str db_error) eqn:Herr; [by intros [= <-]|].
  set (r2 := execute_query E sql (chatbot r1)) in *.
  destruct (result (get_enhanced_response E results (chatbot r2)))
    as [detailed|?]; [|by intros [= <-]].
  destruct (json_of_results results) as [data'|?] eqn:Hdata; [|by intros [= <-]].
  cbn [result effects]. intros [= <-] _.
  apply execute_query_returns in Hexec
    as [(rows & descs & Hrows & Hdescs & -> & -> & Hev & _)|(? & ? & -> & ?)];
    [|congruence].
  apply json_of_results_rows in Hdata as [Hnone ->].
  eexists sql, descs, _, _. split_and!; [|done|done|by rewrite lookup_insert_eq|].
  - rewrite !elem_of_app. right. by left.
  - apply offending_None in Hnone.
    rewrite Forall_fmap, Forall_forall in Hnone.
    apply Forall_fmap, Forall_fmap, Forall_forall. intros cells Hcells. cbn.
    rewrite dom_json_of_row by (by apply (Hnone cells)).
    apply dom_dict_zip. rewrite length_fmap.
    specialize (Hdriver sql rows descs Hrows Hdescs).
    rewrite Forall_forall in Hdriver. by apply Hdriver.
Qed.

Lemma success_data_has_uniform_schema_witness :
  ∃ sql_query descs (records : list (gmap pystr json)) (m : gmap pystr json),
    EvExecute sql_query
      ∈ effects (query_database Sample.happy Sample.good_request Sample.bot) ∧
    cursor_description Sample.happy sql_query = Some descs ∧
    body (jsonify (JObject (<[ py "data" :=
                                 JList (JObject <$>
                                   (json_of_row <$>
                                      ((λ cells,
                                          dict (zip (name <$> Sample.usuarios_description)
                                                    cells))
                                       <$> Sample.usuarios_rows))) ]>
                              {[ py "enhanced_response" := JStr Sample.explanation ]})))
    = JObject m ∧
    m !! py "data" = Some (JList (JObject <$> records)) ∧
    Forall (λ record : gmap pystr json,
              dom record =@{gset pystr} list_to_set (name <$> descs))
           records.
Proof.
  apply (success_data_has_uniform_schema Sample.happy Sample.good_request Sample.bot).
  - intros sql_query rows descs [= <-] [= <-]. by repeat constructor.
  - vm_compute. reflexivity.
  - reflexivity.
Defined.

(** *** The shared instance *)

(** C9.  Whatever the outcome of a request, the shared [SQLChatBot]
    instance is afterwards what it was before: the handler and the
    methods it calls read [db_url] and [openai_api_key] and never assign
    them. *)
Theorem query_database_preserves_chatbot E request self :
  let r := query_database E request self in
  chatbot r = self ∧
  db_url (chatbot r) = db_url self ∧
  openai_api_key (chatbot r) = openai_api_key self.
Proof.
  cbv zeta.
  assert (preserves_self (query_database E request)) as Hpres.
  { unfold query_database, query_database_try, get_sql_query_from_openai,
      execute_query, connect_db, get_enhanced_response.
    solve_preserves. }
  by rewrite Hpres.
Qed.

(** * Further properties *)

(** ** The outcomes of the handler, case by case *)

(** Before the [try] block: the request is rejected, or the exception
    of [request.json] or [data.get] leaves the handler, or the [try]
    block is run on the user input. *)
Lemma query_database_outcomes E request self (Q : run FlaskResponse → Prop) :
  (∀ e, request_json request = Raise e → Q (Run (Raise e) self [])) →
  (∀ data e,
     request_json request = Return data →
     dict_get data (py "userInput") = Raise e →
     Q (Run (Raise e) self [])) →
  (∀ data user_input,
     request_json request = Return data →
     dict_get data (py "userInput") = Return user_input →
     truthy user_input = false →
     Q (Run (Return (failure 400 (py "Falta el parámetro 'userInput'"))) self [])) →
  (∀ data user_input,
     request_json request = Return data →
     dict_get data (py "userInput") = Return user_input →
     truthy user_input = true →
     Q (query_database_try E user_input self)) →
  Q (query_database E request self).
Proof.
  intros Hjson Hget Hfalsy Htry. rewrite query_database_run.
  destruct (request_json request) as [data|e] eqn:Hdata; [|by apply Hjson].
  destruct (dict_get data _) as [user_input|e] eqn:Hui; [|by eapply Hget].
  destruct (truthy user_input) eqn:Htruthy; cbn [negb].
  - by eapply Htry.
  - by eapply Hfalsy.
Qed.

(** Inside the [try] block: the seven ways it ends.  Every step starts
    from the instance the request started from. *)
Lemma query_database_try_outcomes E user_input self (Q : run FlaskResponse → Prop) :
  let r1 := get_sql_query_from_openai E user_input self in
  let printed sql_query := effects r1 ++ [EvPrint (MsgGeneratedQuery sql_query)] in
  let r2 q := execute_query E q self in
  let r3 rows := get_enhanced_response E (Some rows) self in
  (∀ e,
     result r1 = Raise e →
     Q (Run (Return (failure 500 (py "Error general: " ++ exn_str e))) self (effects r1))) →
  (∀ sql_query,
     result r1 = Return sql_query → truthy_str sql_query = false →
     Q (Run (Return (failure 500 (py "No se pudo generar la consulta SQL")))
            self (printed sql_query))) →
  (∀ q e,
     result r1 = Return (Some q) → q ≠ [] →
     result (r2 q) = Raise e →
     Q (Run (Return (failure 500 (py "Error general: " ++ exn_str e)))
            self (printed (Some q) ++ effects (r2 q)))) →
  (∀ q err,
     result r1 = Return (Some q) → q ≠ [] →
     result (r2 q) = Return (None, Some err) → err ≠ [] →
     Q (Run (Return (failure 500 err)) self (printed (Some q) ++ effects (r2 q)))) →
  (∀ q rows e,
     result r1 = Return (Some q) → q ≠ [] →
     result (r2 q) = Return (Some rows, None) →
     result (r3 rows) = Raise e →
     Q (Run (Return (failure 500 (py "Error general: " ++ exn_str e)))
            self (printed (Some q) ++ effects (r2 q) ++ effects (r3 rows)))) →
  (∀ q rows detailed_response type_name,
     result r1 = Return (Some q) → q ≠ [] →
     result (r2 q) = Return (Some rows, None) →
     result (r3 rows) = Return detailed_response →
     offending rows = Some type_name →
     Q (Run (Return (failure 500 (py "Error general: " ++ py "Object of type "
                                  ++ type_name ++ py " is not JSON serializable")))
            self (printed (Some q) ++ effects (r2 q) ++ effects (r3 rows)))) →
  (∀ q rows detailed_response,
     result r1 = Return (Some q) → q ≠ [] →
     result (r2 q) = Return (Some rows, None) →
     result (r3 rows) = Return detailed_response →
     offending rows = None →
     Q (Run (Return (success (json_of_row <$> rows) detailed_response))
            self (printed (Some q) ++ effects (r2 q) ++ effects (r3 rows)))) →
  Q (query_database_try E user_input self).
Proof.
  cbv zeta. intros Hgen Hnone Hexec Hdb Hexplain Hdumps Hok.
  rewrite query_database_try_run. cbv zeta.
  rewrite (get_sql_query_from_openai_preserves E user_input self).
  destruct (result (get_sql_query_from_openai E user_input self))
    as [sql_query|e] eqn:H1; [|by apply Hgen].
  destruct (truthy_str sql_query) eqn:Hsql; cbn [negb]; [|by apply Hnone].
  destruct sql_query as [q|]; [|done]. change (default [] (Some q)) with q.
  assert (q ≠ []) as Hq by (by destruct q).
  rewrite (execute_query_preserves E q self).
  destruct (result (execute_query E q self)) as [[results db_error]|e] eqn:H2;
    [|by apply Hexec].
  destruct (execute_query_returns _ _ _ _ _ H2)
    as [(cells & descs & _ & _ & -> & -> & _)|(err & -> & -> & Herr)].
  - cbn [truthy_str].
    rewrite (get_enhanced_response_preserves E _ self).
    set (rows := (λ c, dict (zip (name <$> descs) c)) <$> cells) in *.
    destruct (result (get_enhanced_response E (Some rows) self))
      as [detailed|e] eqn:H3.
    + unfold json_of_results. destruct (offending rows) as [type_name|] eqn:Hoff.
      * by apply (Hdumps q rows detailed).
      * by apply (Hok q rows detailed).
    + by apply Hexplain.
  - rewrite Herr. apply Hdb; [done..|]. by destruct err.
Qed.

(** ** The interactions of each method *)

(** The generator posts once, and may print once after that. *)
Lemma get_sql_query_from_openai_effects E user_input self :
  let post :=
    EvPost completions_url
      {| model := py "gpt-4-turbo";
         system_content := sql_system_content;
         user_message := Convierte user_input;
         max_tokens := 100 |}
      (py "Bearer " ++ str_of_option (openai_api_key self)) in
  effects (get_sql_query_from_openai E user_input self) = [post] ∨
  ∃ body,
    effects (get_sql_query_from_openai E user_input self)
    = [post; EvPrint (MsgOpenAIError body)].
Proof.
  cbv zeta. unfold get_sql_query_from_openai.
  rewrite self_get_bind, ext_bind.
  destruct (requests_post E _ _ _) as [response|e]; [|by left].
  cbn [effects]. destruct (status_code response =? 200)%Z.
  - left. f_equal.
    repeat (rewrite eval_bind; case_match; [|done]). done.
  - rewrite eval_bind. destruct (Response_json response) as [body|e]; [|by left].
    right. by exists body.
Qed.

(** So does the explainer. *)
Lemma get_enhanced_response_effects E query_result self :
  let post :=
    EvPost completions_url
      {| model := py "gpt-4-turbo";
         system_content := explain_system_content;
         user_message := Interpreta query_result;
         max_tokens := 200 |}
      (py "Bearer " ++ str_of_option (openai_api_key self)) in
  effects (get_enhanced_response E query_result self) = [post] ∨
  ∃ body,
    effects (get_enhanced_response E query_result self)
    = [post; EvPrint (MsgOpenAIError body)].
Proof.
  cbv zeta. unfold get_enhanced_response.
  rewrite self_get_bind, ext_bind.
  destruct (requests_post E _ _ _) as [response|e]; [|by left].
  cbn [effects]. destruct (status_code response =? 200)%Z.
  - left. f_equal.
    repeat (rewrite eval_bind; case_match; [|done]).
    by destruct (getitem_key _ _).
  - rewrite eval_bind. destruct (Response_json response) as [body|e]; [|by left].
    right. by exists body.
Qed.

(** ** Cleaning of the generated query *)

Lemma lstrip_suffix s : ∃ a, s = a ++ lstrip s.
Proof.
  induction s as [|c s [a IH]]; [by exists []|]. simpl.
  destruct (isspace c); [|by exists []].
  exists (c :: a). simpl. by rewrite <- IH.
Qed.

(** Trimming keeps a contiguous part of the string. *)
Lemma strip_infix s : ∃ a b, s = a ++ strip s ++ b.
Proof.
  unfold strip, rstrip.
  destruct (lstrip_suffix s) as [a Ha].
  destruct (lstrip_suffix (reverse (lstrip s))) as [b Hb].
  exists a, (reverse b). rewrite <- reverse_app, <- Hb, reverse_involutive. done.
Qed.

Lemma occurs_in_strip p s : occurs_in p (strip s) → occurs_in p s.
Proof.
  intros (a & b & Hab). destruct (strip_infix s) as (a' & b' & Hs).
  exists (a' ++ a), (b ++ b'). rewrite Hs at 1. rewrite Hab.
  by rewrite <- !app_assoc.
Qed.

(** Where [old] does not occur nothing is replaced. *)
Lemma replace_absent old new s :
  old ≠ [] → ¬ occurs_in old s → replace old new s = s.
Proof.
  intros Hold. induction s as [|c s IH]; intros Hno.
  - by apply replace_nil.
  - rewrite replace_no_match; [|done|].
    + f_equal. apply IH. intros (a & b & Hab). apply Hno.
      exists (c :: a), b. by rewrite Hab.
    + intros [k Hk]. apply Hno. exists [], k. done.
Qed.

Lemma no_backtick_no_fence s : 96%N ∉ s → ¬ occurs_in fence s.
Proof.
  intros Hno (a & b & Hab). apply Hno. rewrite Hab.
  apply elem_of_app. right. apply list_elem_of_here.
Qed.

(** X2.  A reply in which no code-fence marker occurs is only trimmed:
    the SQL text between the surrounding white space is not altered. *)
Theorem clean_sql_without_fence content :
  ¬ occurs_in fence content → clean_sql content = strip content.
Proof.
  intros Hno. unfold clean_sql.
  assert (¬ occurs_in fence (strip content)) as Hstrip.
  { intros Hocc. by apply Hno, occurs_in_strip. }
  rewrite (replace_absent fence_sql); [by apply replace_absent|done|].
  intros (a & b & Hab). apply Hstrip.
  exists a, (py "sql" ++ b). by rewrite Hab.
Qed.

Lemma clean_sql_without_fence_witness :
  clean_sql (py "  SELECT nombre FROM usuarios;
") = strip (py "  SELECT nombre FROM usuarios;
").
Proof.
  apply clean_sql_without_fence, no_backtick_no_fence.
  apply (bool_decide_unpack _). vm_compute. exact I.
Defined.

(** X1.  Whatever the provider answers, a query returned by the
    generator contains no code-fence marker, neither [```] nor
    [```sql]. *)
Theorem generated_query_has_no_fence E user_input self q :
  result (get_sql_query_from_openai E user_input self) = Return (Some q) →
  ¬ occurs_in (py "```") q ∧ ¬ occurs_in (py "```sql") q.
Proof.
  unfold get_sql_query_from_openai.
  rewrite self_get_bind, ext_bind.
  destruct (requests_post E _ _ _) as [response|e]; [|done].
  cbn [result]. destruct (status_code response =? 200)%Z.
  - repeat (rewrite eval_bind; case_match; [|done]).
    intros [= <-].
    match goal with
    | |- context [replace fence_sql [] ?s] => set (fenceless := replace fence_sql [] s)
    end.
    split.
    + by apply (remove_triple_clean 96 (length fenceless) fenceless).
    + intros (pre & post & Hocc).
      apply (remove_triple_clean 96 (length fenceless) fenceless); [done|].
      exists pre, (py "sql" ++ post). exact Hocc.
  - rewrite eval_bind. by destruct (Response_json response).
Qed.

Lemma generated_query_has_no_fence_witness :
  ¬ occurs_in (py "```") (clean_sql Sample.sql_reply) ∧
  ¬ occurs_in (py "```sql") (clean_sql Sample.sql_reply).
Proof.
  apply (generated_query_has_no_fence Sample.happy Sample.question Sample.bot).
  vm_compute. reflexivity.
Defined.

(** ** The database gateway, further *)

(** X3.  [connect_db] asks the driver for a connection exactly once;
    it returns the connection the driver gives, returns [None] when the
    driver raises a [psycopg2.Error], and lets an exception of any
    other class through unchanged.  So no [psycopg2.Error] leaves it,
    and it returns [None] exactly when the driver raised one. *)
Theorem connect_db_contains_driver_errors E self :
  count is_connect (effects (connect_db E self)) = 1 ∧
  result (connect_db E self)
  = match psycopg2_connect E (db_url self) (py "require") with
    | Return conn => Return (Some conn)
    | Raise e => if is_psycopg2_error e then Return None else Raise e
    end ∧
  (∀ e, result (connect_db E self) = Raise e → is_psycopg2_error e = false) ∧
  (result (connect_db E self) = Return None ↔
   ∃ e, psycopg2_connect E (db_url self) (py "require") = Raise e ∧
        is_psycopg2_error e = true).
Proof.
  unfold connect_db. rewrite self_get_bind. unfold try_except. cbv zeta.
  rewrite ext_bind.
  destruct (psycopg2_connect E (db_url self) (py "require")) as [conn|e].
  - split_and!; [done|done|done|]. split; [done|]. by intros (e & ? & _).
  - destruct (is_psycopg2_error e) eqn:Hcls.
    + split_and!; [done|done|done|]. split; [|done]. by exists e.
    + split_and!; [done|done|by intros ? [= <-]|].
      split; [done|]. intros (e' & [= <-] & ?). congruence.
Qed.

(** X4.  What the gateway returns is either rows and no error, or no
    rows and a non-empty error message: never both, never neither. *)
Theorem execute_query_result_exclusive E sql_query self results db_error :
  result (execute_query E sql_query self) = Return (results, db_error) →
  (∃ rows, results = Some rows ∧ db_error = None) ∨
  (∃ err, results = None ∧ db_error = Some err ∧ err ≠ []).
Proof.
  rewrite execute_query_run. cbv zeta.
  repeat case_match; intros [= <- <-];
    first [ left; by eexists
          | right; eexists; split_and!; [done..|]; by vm_compute ].
Qed.

Lemma execute_query_result_exclusive_witness :
  (∃ rows : list row, (None : option (list row)) = Some rows ∧
                      Some (py "Error en la base de datos: " ++ exn_str Sample.syntax_error)
                      = None) ∨
  (∃ err, (None : option (list row)) = None ∧
          Some (py "Error en la base de datos: " ++ exn_str Sample.syntax_error) = Some err ∧
          err ≠ []).
Proof.
  apply (execute_query_result_exclusive Sample.bad_sql (py "SELEC 1") Sample.bot).
  vm_compute. reflexivity.
Defined.

(** X5.  No [psycopg2.Error] leaves the gateway: an exception that
    does leave it is of another class. *)
Theorem execute_query_contains_driver_errors E sql_query self e :
  result (execute_query E sql_query self) = Raise e →
  is_psycopg2_error e = false.
Proof.
  rewrite execute_query_run. cbv zeta.
  repeat case_match; intros [= <-]; done.
Qed.

Lemma execute_query_contains_driver_errors_witness :
  is_psycopg2_error Sample.decode_error = false.
Proof.
  apply (execute_query_contains_driver_errors
           (Sample.world Sample.api_error Sample.api_error (Raise Sample.decode_error))
           (py "SELECT 1") Sample.bot).
  vm_compute. reflexivity.
Defined.

(** X6.  One call of the gateway makes one connection attempt, to
    [self.db_url] with SSL required, and sends at most one statement
    to the database: the one it was given, unchanged. *)
Theorem execute_query_sends_given_statement_once E sql_query self :
  let t := effects (execute_query E sql_query self) in
  count is_connect t = 1 ∧
  count is_execute t ≤ 1 ∧
  Forall (configured_connect self) t ∧
  ∀ q, EvExecute q ∈ t → q = sql_query.
Proof.
  cbv zeta. rewrite execute_query_run. cbv zeta.
  repeat case_match; cbn [effects];
    (split_and!;
     [ reflexivity
     | cbv [count List.filter is_execute length]; lia
     | by repeat constructor
     | intros q Hq;
       repeat (apply elem_of_cons in Hq as [Hq|Hq]; [by try injection Hq|]);
       by apply elem_of_nil in Hq ]).
Qed.

(** A record maps each column name to the cell of its position. *)
Lemma lookup_dict_fresh (k : pystr) (pairs : list (pystr * cell)) (m : row) :
  k ∉ pairs.*1 →
  foldl (λ m kv, <[kv.1 := kv.2]> m) m pairs !! k = m !! k.
Proof.
  revert m. induction pairs as [|[k' v'] pairs IH]; intros m Hk; [done|].
  simpl in *. apply not_elem_of_cons in Hk as [Hne Hk].
  rewrite IH by done. by rewrite lookup_insert_ne.
Qed.

Lemma lookup_dict (k : pystr) (v : cell) (pairs : list (pystr * cell)) :
  NoDup pairs.*1 → (k, v) ∈ pairs → dict pairs !! k = Some v.
Proof.
  unfold dict. generalize (∅ : row).
  induction pairs as [|[k' v'] pairs IH]; intros m Hnd Hin.
  { by apply elem_of_nil in Hin. }
  simpl in *. apply NoDup_cons in Hnd as [Hfresh Hnd].
  apply elem_of_cons in Hin as [[= <- <-]|Hin].
  - rewrite lookup_dict_fresh by done. apply lookup_insert_eq.
  - by apply IH.
Qed.

(** X7.  When the column names of a result are distinct, each record
    gives back, under the name of a column, the cell the row has at
    the position of that column. *)
Theorem record_lookup (columns : list pystr) (cells : list cell) i k v :
  NoDup columns →
  length cells = length columns →
  columns !! i = Some k →
  cells !! i = Some v →
  dict (zip columns cells) !! k = Some v.
Proof.
  intros Hnd Hlen Hk Hv. apply lookup_dict.
  - rewrite fst_zip; [done|lia].
  - apply list_elem_of_lookup. exists i.
    rewrite lookup_zip_with, Hk. simpl. by rewrite Hv.
Qed.

Lemma record_lookup_witness :
  dict (zip (name <$> Sample.usuarios_description)
            [Cell (JInt 1); Cell (JStr (py "Ana")); Cell (JStr (py "ana@example.com"));
             Cell (JInt 41)])
    !! py "email"
  = Some (Cell (JStr (py "ana@example.com"))).
Proof.
  apply (record_lookup _ _ 2).
  - apply (bool_decide_unpack _). vm_compute. exact I.
  - reflexivity.
  - reflexivity.
  - reflexivity.
Defined.

(** ** Interactions that depend on the instance *)

Section EmitsFrom.

Context (self : SQLChatBot) (P : event → Prop).

Lemma emits_from_mret {A} (a : A) : emits_from self P (mret a).
Proof. split; [constructor|done]. Qed.

Lemma emits_from_eval {A} (o : outcome A) : emits_from self P (eval o).
Proof. split; [constructor|done]. Qed.

Lemma emits_from_ext {A} ev (o : outcome A) : P ev → emits_from self P (ext ev o).
Proof. intros Hev. split; [by repeat constructor|done]. Qed.

Lemma emits_from_bind {A B} (m : M A) (f : A → M B) :
  emits_from self P m → (∀ a, emits_from self P (f a)) → emits_from self P (m ≫= f).
Proof.
  intros [Hm Hself] Hf. unfold emits_from, mbind, M_bind.
  destruct (m self) as [[a|e] self' t]; simpl in *; [|done]. subst self'.
  destruct (Hf a) as [Hfa ?]. split; [|done]. by apply Forall_app.
Qed.

(** What [self_get] reads is the instance the run started from. *)
Lemma emits_from_self_get_bind {B} (f : SQLChatBot → M B) :
  emits_from self P (f self) → emits_from self P (self_get ≫= f).
Proof. unfold emits_from. by rewrite self_get_bind. Qed.

Lemma emits_from_try_except {A} (body : M A) catches handler :
  emits_from self P body → (∀ e, emits_from self P (handler e)) →
  emits_from self P (try_except body catches handler).
Proof.
  intros [Hb Hself] Hh. unfold emits_from, try_except.
  destruct (body self) as [[a|e] self' t]; simpl in *; [done|]. subst self'.
  destruct (catches e); simpl; [|done].
  destruct (Hh e) as [He ?]. split; [|done]. by apply Forall_app.
Qed.

Lemma emits_from_with_cursor {A} (body : M A) :
  P EvCursor → P EvCursorClose → emits_from self P body →
  emits_from self P (with_cursor body).
Proof.
  intros Ho Hc [Hb Hself]. unfold emits_from, with_cursor. simpl.
  split; [|done]. constructor; [done|].
  apply Forall_app. split; [done|by repeat constructor].
Qed.

End EmitsFrom.

Ltac solve_emits_from :=
  repeat
    (intros;
     lazymatch goal with
     | |- emits_from _ _ (let _ := _ in _) => cbv zeta
     | |- emits_from _ _ (match ?x with _ => _ end) => destruct x
     | |- emits_from _ _ (self_get ≫= _) => apply emits_from_self_get_bind
     | |- emits_from _ _ (_ ≫= _) => apply emits_from_bind
     | |- emits_from _ _ (try_except _ _ _) => apply emits_from_try_except
     | |- emits_from _ _ (with_cursor _) => apply emits_from_with_cursor
     | |- emits_from _ _ (mret _) => apply emits_from_mret
     | |- emits_from _ _ (eval _) => apply emits_from_eval
     | |- emits_from _ _ (print _) => apply emits_from_ext
     | |- emits_from _ _ (ext _ _) => apply emits_from_ext
     | |- _ => done
     end).

(** X8.  Every request the handler sends to the provider, for
    generation or for explanation, goes to the chat completions
    endpoint with the key of the shared instance as bearer token, asks
    for the model [gpt-4-turbo], and limits the reply to 100 tokens for
    a query and 200 for an explanation. *)
Theorem provider_requests_are_configured E request self :
  Forall (configured_post self) (effects (query_database E request self)).
Proof.
  assert (emits_from self (configured_post self) (query_database E request))
    as [Hall _]; [|done].
  unfold query_database, query_database_try, get_sql_query_from_openai,
    execute_query, connect_db, get_enhanced_response.
  solve_emits_from.
Qed.

(** ** Counting and ordering interactions *)

Lemma count_app p t1 t2 : count p (t1 ++ t2) = count p t1 + count p t2.
Proof. unfold count. by rewrite List.filter_app, length_app. Qed.

Lemma count_none p t : Forall (λ ev, p ev = false) t → count p t = 0.
Proof.
  unfold count. induction 1 as [|ev t Hev _ IH]; [done|].
  simpl. by rewrite Hev.
Qed.

(** An event that satisfies [p] and follows a stretch where nothing
    does lies after that stretch. *)
Lemma first_after_prefix (p : event → bool) l1 l2 t ev t' :
  Forall (λ x, p x = false) l1 →
  l1 ++ l2 = t ++ ev :: t' →
  p ev = true →
  ∃ t'', t = l1 ++ t''.
Proof.
  intros Hl1. revert t. induction Hl1 as [|x l1 Hx _ IH]; intros t Heq Hev.
  { by exists t. }
  destruct t as [|y t]; simpl in Heq.
  - injection Heq as -> _. congruence.
  - injection Heq as -> Heq. destruct (IH t Heq Hev) as [t'' ->].
    by exists t''.
Qed.

Lemma execute_query_counts E sql_query self :
  count is_post (effects (execute_query E sql_query self)) = 0 ∧
  count is_connect (effects (execute_query E sql_query self)) = 1 ∧
  count is_execute (effects (execute_query E sql_query self)) ≤ 1.
Proof.
  rewrite execute_query_run. cbv zeta.
  repeat case_match; cbn [effects]; cbv [count List.filter is_post is_connect
    is_execute length]; lia.
Qed.

Lemma executed_statement_is_argument E sql_query self q :
  EvExecute q ∈ effects (execute_query E sql_query self) → q = sql_query.
Proof.
  rewrite execute_query_run. cbv zeta.
  repeat case_match; cbn [effects]; intros Hq;
    repeat (apply elem_of_cons in Hq as [Hq|Hq]; [by try injection Hq|]);
    by apply elem_of_nil in Hq.
Qed.

Lemma get_sql_query_from_openai_counts E user_input self :
  count is_post (effects (get_sql_query_from_openai E user_input self)) = 1 ∧
  count is_connect (effects (get_sql_query_from_openai E user_input self)) = 0 ∧
  count is_execute (effects (get_sql_query_from_openai E user_input self)) = 0.
Proof.
  destruct (get_sql_query_from_openai_effects E user_input self) as [-> | [body ->]];
    done.
Qed.

Lemma get_enhanced_response_counts E query_result self :
  count is_post (effects (get_enhanced_response E query_result self)) = 1 ∧
  count is_connect (effects (get_enhanced_response E query_result self)) = 0 ∧
  count is_execute (effects (get_enhanced_response E query_result self)) = 0.
Proof.
  destruct (get_enhanced_response_effects E query_result self) as [-> | [body ->]];
    done.
Qed.

(** X9.  One request makes at most two requests to the provider, at
    most one connection attempt and sends at most one statement to the
    database: nothing is retried. *)
Theorem interaction_budget E request self :
  let t := effects (query_database E request self) in
  count is_post t ≤ 2 ∧ count is_connect t ≤ 1 ∧ count is_execute t ≤ 1.
Proof.
  cbv zeta. pattern (query_database E request self).
  apply query_database_outcomes; intros; cbn [effects];
    [cbv [count List.filter length]; lia..|].
  pattern (query_database_try E user_input self).
  apply query_database_try_outcomes; intros; cbn [effects];
    rewrite ?count_app;
    repeat match goal with
    | |- context [count _ (effects (get_sql_query_from_openai E ?u self))] =>
        destruct (get_sql_query_from_openai_counts E u self) as (-> & -> & ->)
    | |- context [count _ (effects (get_enhanced_response E ?r self))] =>
        destruct (get_enhanced_response_counts E r self) as (-> & -> & ->)
    | |- context [count _ (effects (execute_query E ?q self))] =>
        destruct (execute_query_counts E q self) as (-> & -> & ?)
    end;
    repeat match goal with
    | |- context [count ?p [EvPrint ?msg]] => change (count p [EvPrint msg]) with 0
    end;
    lia.
Qed.

(** ** The answers of the handler *)

(** X10.  Every answer of the handler is either a success carrying
    rows and an explanation, or a 400 or 500 failure carrying a
    non-empty error message. *)
Theorem answer_is_rows_or_error E request self resp :
  result (query_database E request self) = Return resp →
  (∃ rows detailed_response, resp = success rows detailed_response) ∨
  (∃ code msg, (code = 400%Z ∨ code = 500%Z) ∧ msg ≠ [] ∧ resp = failure code msg).
Proof.
  pattern (query_database E request self).
  apply query_database_outcomes; try done.
  - intros _ _ _ _ _ [= <-]. right. eexists _, _.
    split_and!; [by left| |done]. by vm_compute.
  - intros _ user_input _ _ _.
    pattern (query_database_try E user_input self).
    apply query_database_try_outcomes; intros; simplify_eq/=;
      first [ left; by eexists _, _
            | right; eexists 500%Z, _; split_and!; [by right| |done];
              first [done | by vm_compute] ].
Qed.

Lemma answer_is_rows_or_error_witness :
  (∃ rows detailed_response,
     failure 400 (py "Falta el parámetro 'userInput'") = success rows detailed_response) ∨
  (∃ code msg, (code = 400%Z ∨ code = 500%Z) ∧ msg ≠ [] ∧
               failure 400 (py "Falta el parámetro 'userInput'") = failure code msg).
Proof.
  apply (answer_is_rows_or_error Sample.happy Sample.empty_request Sample.bot).
  reflexivity.
Defined.

(** X11.  The handler answers 400 exactly when the body is a JSON
    object whose [userInput] is absent or falsy (empty string, null,
    zero, false, empty list or object); it then has talked to nobody. *)
Theorem status_400_iff_falsy_input E request self :
  ((∃ resp, result (query_database E request self) = Return resp ∧ status resp = 400%Z)
   ↔ ∃ m : gmap pystr json,
       request_json request = Return (JObject m) ∧
       truthy (default JNull (m !! py "userInput")) = false) ∧
  ((∃ resp, result (query_database E request self) = Return resp ∧ status resp = 400%Z)
   → effects (query_database E request self) = []).
Proof.
  split.
  - split.
    + pattern (query_database E request self).
      apply query_database_outcomes.
      * by intros e _ (resp & ? & _).
      * by intros data e _ _ (resp & ? & _).
      * intros data user_input Hjson Hget Hfalsy _.
        destruct data; try done. injection Hget as <-. by eexists.
      * intros data user_input _ _ _.
        pattern (query_database_try E user_input self).
        apply query_database_try_outcomes; intros; cbn [result] in *;
          match goal with
          | H : ∃ _, _ |- _ => by destruct H as (resp & [= <-] & ?)
          end.
    + intros (m & Hjson & Hfalsy). rewrite query_database_run, Hjson.
      cbn [dict_get]. rewrite Hfalsy. by eexists.
  - pattern (query_database E request self).
    apply query_database_outcomes; try done.
    intros data user_input _ _ _.
    pattern (query_database_try E user_input self).
    apply query_database_try_outcomes; intros; cbn [result] in *;
          match goal with
          | H : ∃ _, _ |- _ => by destruct H as (resp & [= <-] & ?)
          end.
Qed.

(** X12.  A request whose body is a JSON object is always answered:
    no exception leaves the handler. *)
Theorem object_body_always_answered (E : Env) (request : Request) (self : SQLChatBot)
    (m : gmap pystr json) :
  request_json request = Return (JObject m) →
  ∃ resp, result (query_database E request self) = Return resp.
Proof.
  intros Hjson. pattern (query_database E request self).
  apply query_database_outcomes.
  - intros e He. congruence.
  - intros data e Hdata Hget. rewrite Hjson in Hdata. by injection Hdata as <-.
  - intros. by eexists.
  - intros data user_input _ _ _.
    pattern (query_database_try E user_input self).
    apply query_database_try_outcomes; intros; by eexists.
Qed.

Lemma object_body_always_answered_witness :
  ∃ resp,
    result (query_database Sample.generator_gateway Sample.good_request Sample.bot)
    = Return resp.
Proof.
  apply (object_body_always_answered Sample.generator_gateway Sample.good_request
           Sample.bot {[ py "userInput" := Sample.question ]}).
  reflexivity.
Defined.

(** ** What flows from one step to the next *)

Lemma generation_has_no_db_event E user_input self ev :
  ev ∈ effects (get_sql_query_from_openai E user_input self) →
  is_db_event ev = false ∧ is_explain_post ev = false.
Proof.
  intros Hin.
  by apply (proj1 (Forall_forall _ _) (get_sql_query_from_openai_emits E user_input self)).
Qed.

Lemma explanation_has_no_db_event E query_result self ev :
  ev ∈ effects (get_enhanced_response E query_result self) →
  is_db_event ev = false.
Proof.
  intros Hin.
  by apply (proj1 (Forall_forall _ _)
              (get_enhanced_response_emits E query_result self)).
Qed.

Lemma gateway_has_no_post E sql_query self ev :
  ev ∈ effects (execute_query E sql_query self) → is_explain_post ev = false.
Proof.
  intros Hin. apply not_post_not_explain.
  by apply (proj1 (Forall_forall _ _) (execute_query_emits E sql_query self)).
Qed.

(** X13.  The only statement the handler ever sends to the database is
    the non-empty string the generator returned for the user input of
    the request: it is not checked, rewritten or parameterised on the
    way. *)
Theorem executed_statement_is_generated_query E request self q :
  EvExecute q ∈ effects (query_database E request self) →
  ∃ data user_input,
    request_json request = Return data ∧
    dict_get data (py "userInput") = Return user_input ∧
    truthy user_input = true ∧
    result (get_sql_query_from_openai E user_input self) = Return (Some q) ∧
    q ≠ [].
Proof.
  pattern (query_database E request self).
  apply query_database_outcomes;
    try (intros; cbn [effects] in *; by exfalso; eapply elem_of_nil).
  intros data user_input Hjson Hget Htruthy.
  pattern (query_database_try E user_input self).
  apply query_database_try_outcomes; cbn [effects]; intros;
    repeat match goal with
    | H : _ ∈ _ ++ _ |- _ => apply elem_of_app in H as [H|H]
    | H : _ ∈ [_] |- _ => by apply list_elem_of_singleton in H
    | H : EvExecute _ ∈ effects (get_sql_query_from_openai _ _ _) |- _ =>
        by apply generation_has_no_db_event in H as [? _]
    | H : EvExecute _ ∈ effects (get_enhanced_response _ _ _) |- _ =>
        by apply explanation_has_no_db_event in H
    | H : EvExecute _ ∈ effects (execute_query _ _ _) |- _ =>
        apply executed_statement_is_argument in H as ->
    end;
    by eexists _, _.
Qed.

Lemma executed_statement_is_generated_query_witness :
  ∃ data user_input,
    request_json Sample.good_request = Return data ∧
    dict_get data (py "userInput") = Return user_input ∧
    truthy user_input = true ∧
    result (get_sql_query_from_openai Sample.happy user_input Sample.bot)
    = Return (Some (clean_sql Sample.sql_reply)) ∧
    clean_sql Sample.sql_reply ≠ [].
Proof.
  apply (executed_statement_is_generated_query Sample.happy Sample.good_request
           Sample.bot).
  apply list_elem_of_lookup. exists 4. vm_compute. reflexivity.
Defined.

(** X14.  In a successful answer the rows under [data] are the very
    rows that were sent to the provider for explanation, in their JSON
    form. *)
Theorem explainer_sees_returned_rows E request self resp :
  result (query_database E request self) = Return resp →
  status resp = 200%Z →
  ∃ rows detailed_response url payload authorization,
    resp = success (json_of_row <$> rows) detailed_response ∧
    EvPost url payload authorization ∈ effects (query_database E request self) ∧
    user_message payload = Interpreta (Some rows).
Proof.
  pattern (query_database E request self).
  apply query_database_outcomes; try done.
  { by intros _ _ _ _ _ [= <-]. }
  intros data user_input _ _ _.
  pattern (query_database_try E user_input self).
  apply query_database_try_outcomes; cbn [result effects];
    try (by intros; simplify_eq/=).
  intros q rows detailed_response _ _ _ _ _ [= <-] _.
  destruct (get_enhanced_response_effects E (Some rows) self) as [Hpost|[? Hpost]];
    rewrite Hpost; eexists rows, detailed_response, _, _, _;
    (split; [done|]);
    (split; [rewrite !elem_of_app; right; right; apply list_elem_of_here|done]).
Qed.

Lemma explainer_sees_returned_rows_witness :
  ∃ rows detailed_response url payload authorization,
    success (json_of_row <$>
               ((λ cells, dict (zip (name <$> Sample.usuarios_description) cells))
                <$> Sample.usuarios_rows))
            (JStr Sample.explanation)
    = success (json_of_row <$> rows) detailed_response ∧
    EvPost url payload authorization
      ∈ effects (query_database Sample.happy Sample.good_request Sample.bot) ∧
    user_message payload = Interpreta (Some rows).
Proof.
  apply (explainer_sees_returned_rows Sample.happy Sample.good_request Sample.bot).
  - vm_compute. reflexivity.
  - reflexivity.
Defined.

(** X15.  The provider is asked for an explanation only after the
    statement has been executed and the connection closed. *)
Theorem explainer_runs_after_close E request self t ev t' :
  effects (query_database E request self) = t ++ ev :: t' →
  is_explain_post ev = true →
  EvClose ∈ t ∧ ∃ q, EvExecute q ∈ t.
Proof.
  pattern (query_database E request self).
  apply query_database_outcomes;
    try (intros; cbn [effects] in *; by destruct t).
  intros data user_input _ _ _.
  pattern (query_database_try E user_input self).
  assert (∀ sql_query,
    Forall (λ x, is_explain_post x = false)
      (effects (get_sql_query_from_openai E user_input self)
       ++ [EvPrint (MsgGeneratedQuery sql_query)])) as Hgen.
  { intros sql_query. apply Forall_app. split; [|by repeat constructor].
    apply Forall_forall. intros x Hx. by apply generation_has_no_db_event in Hx as [_ ?]. }
  assert (∀ q, Forall (λ x, is_explain_post x = false) (effects (execute_query E q self)))
    as Hexec.
  { intros q. apply Forall_forall. intros x Hx. by eapply gateway_has_no_post. }
  assert (∀ l, Forall (λ x, is_explain_post x = false) l →
               l = t ++ ev :: t' → is_explain_post ev = true → False) as Hnone.
  { intros l Hl -> Hev. apply Forall_app in Hl as [_ Hl].
    apply Forall_cons in Hl as [Hl _]. congruence. }
  assert (∀ q rows l3,
    result (execute_query E q self) = Return (Some rows, None) →
    (effects (get_sql_query_from_openai E user_input self)
     ++ [EvPrint (MsgGeneratedQuery (Some q))])
    ++ effects (execute_query E q self) ++ l3 = t ++ ev :: t' →
    is_explain_post ev = true →
    EvClose ∈ t ∧ ∃ q, EvExecute q ∈ t) as Hlate.
  { intros q rows l3 Hrows Heq Hev. rewrite app_assoc in Heq.
    destruct (first_after_prefix is_explain_post _ _ _ _ _
                (proj2 (Forall_app _ _ _) (conj (Hgen (Some q)) (Hexec q))) Heq Hev)
      as [t'' ->].
    destruct (execute_query_returns _ _ _ _ _ Hrows)
      as [(? & ? & _ & _ & _ & _ & Hexe & Hcls)|(? & ? & _)]; [|done].
    split; [|exists q]; rewrite !elem_of_app; by left; right. }
  apply query_database_try_outcomes; cbn [effects].
  - intros e _ Heq Hev. exfalso. eapply Hnone; [|done..].
    apply Forall_forall. intros x Hx.
    by apply generation_has_no_db_event in Hx as [_ ?].
  - intros sql_query _ _ Heq Hev. exfalso. eapply Hnone; [|done..]. apply Hgen.
  - intros q e _ _ _ Heq Hev. exfalso. eapply Hnone; [|done..].
    apply Forall_app. by split.
  - intros q err _ _ _ _ Heq Hev. exfalso. eapply Hnone; [|done..].
    apply Forall_app. by split.
  - intros q rows e _ _ Hrows _. by apply (Hlate q rows).
  - intros q rows detailed_response type_name _ _ Hrows _ _. by apply (Hlate q rows).
  - intros q rows detailed_response _ _ Hrows _ _. by apply (Hlate q rows).
Qed.

Lemma explainer_runs_after_close_witness :
  EvClose ∈ effects (get_sql_query_from_openai Sample.happy Sample.question Sample.bot)
            ++ [EvPrint (MsgGeneratedQuery (Some (clean_sql Sample.sql_reply)))]
            ++ effects (execute_query Sample.happy (clean_sql Sample.sql_reply) Sample.bot) ∧
  ∃ q,
    EvExecute q
      ∈ effects (get_sql_query_from_openai Sample.happy Sample.question Sample.bot)
        ++ [EvPrint (MsgGeneratedQuery (Some (clean_sql Sample.sql_reply)))]
        ++ effects (execute_query Sample.happy (clean_sql Sample.sql_reply) Sample.bot).
Proof.
  apply (explainer_runs_after_close Sample.happy Sample.good_request Sample.bot _
           (EvPost completions_url
              {| model := py "gpt-4-turbo";
                 system_content := explain_system_content;
                 user_message :=
                   Interpreta
                     (Some ((λ cells,
                               dict (zip (name <$> Sample.usuarios_description) cells))
                            <$> Sample.usuarios_rows));
                 max_tokens := 200 |}
              (py "Bearer sk-test"))
           []).
  - vm_compute. reflexivity.
  - reflexivity.
Defined.

(** X16.  Any truthy [userInput], a string or not, is handed to the
    generator as it is: the first interaction of the request is the
    generation request carrying that value. *)
Theorem truthy_input_is_forwarded (E : Env) (request : Request) (self : SQLChatBot)
    (m : gmap pystr json) (v : json) :
  request_json request = Return (JObject m) →
  m !! py "userInput" = Some v →
  truthy v = true →
  ∃ t,
    effects (query_database E request self)
    = EvPost (py "https://api.openai.com/v1/chat/completions")
        {| model := py "gpt-4-turbo";
           system_content := sql_system_content;
           user_message := Convierte v;
           max_tokens := 100 |}
        (py "Bearer " ++ str_of_option (openai_api_key self)) :: t.
Proof.
  intros Hjson Hkey Htruthy.
  rewrite query_database_run, Hjson. cbn [dict_get]. rewrite Hkey.
  cbn [default from_option id]. rewrite Htruthy. cbn [negb].
  pattern (query_database_try E v self).
  apply query_database_try_outcomes; cbn [effects]; intros;
    destruct (get_sql_query_from_openai_effects E v self) as [-> | [body ->]];
    by eexists.
Qed.

Lemma truthy_input_is_forwarded_witness :
  ∃ t,
    effects (query_database Sample.happy
               (Sample.request_of (JObject {[ py "userInput" := JInt 42 ]}))
               Sample.bot)
    = EvPost (py "https://api.openai.com/v1/chat/completions")
        {| model := py "gpt-4-turbo";
           system_content := sql_system_content;
           user_message := Convierte (JInt 42);
           max_tokens := 100 |}
        (py "Bearer " ++ str_of_option (openai_api_key Sample.bot)) :: t.
Proof.
  apply (truthy_input_is_forwarded Sample.happy _ Sample.bot
           {[ py "userInput" := JInt 42 ]} (JInt 42));
    [reflexivity | vm_compute; reflexivity | reflexivity].
Defined.

(** X17.  When the database cannot be reached the answer is 500 with
    the fixed message "No se pudo conectar a la base de datos." (the
    text of the driver's error is only printed), no statement is sent
    and the provider is not asked for an explanation. *)
Theorem unreachable_database_is_500 E request self data user_input q e :
  request_json request = Return data →
  dict_get data (py "userInput") = Return user_input →
  truthy user_input = true →
  result (get_sql_query_from_openai E user_input self) = Return (Some q) →
  q ≠ [] →
  psycopg2_connect E (db_url self) (py "require") = Raise e →
  is_psycopg2_error e = true →
  let r := query_database E request self in
  result r = Return (failure 500 (py "No se pudo conectar a la base de datos.")) ∧
  EvPrint (MsgConnectError e) ∈ effects r ∧
  count is_execute (effects r) = 0 ∧
  count is_post (effects r) = 1.
Proof.
  intros Hjson Hget Htruthy Hgen Hq Hconn Hcls. cbv zeta.
  rewrite query_database_run, Hjson, Hget, Htruthy. cbn [negb].
  rewrite query_database_try_run. cbv zeta.
  rewrite (get_sql_query_from_openai_preserves E user_input self), Hgen.
  assert (truthy_str (Some q) = true) as -> by (by destruct q).
  cbn [negb]. change (default [] (Some q)) with q.
  rewrite (execute_query_run E q self). cbv zeta. rewrite Hconn, Hcls.
  cbn [result effects].
  assert (truthy_str (Some (py "No se pudo conectar a la base de datos.")) = true) as ->
    by (by vm_compute).
  cbn [result effects json_of_str]. split; [done|]. split.
  - rewrite !elem_of_app. right.
    apply list_elem_of_further, list_elem_of_here.
  - rewrite !count_app.
    destruct (get_sql_query_from_openai_counts E user_input self) as (-> & _ & ->).
    done.
Qed.

Lemma unreachable_database_is_500_witness :
  let r := query_database Sample.unreachable Sample.good_request Sample.bot in
  result r = Return (failure 500 (py "No se pudo conectar a la base de datos.")) ∧
  EvPrint (MsgConnectError Sample.connection_refused) ∈ effects r ∧
  count is_execute (effects r) = 0 ∧
  count is_post (effects r) = 1.
Proof.
  apply (unreachable_database_is_500 Sample.unreachable Sample.good_request Sample.bot
           (JObject {[ py "userInput" := Sample.question ]}) Sample.question
           (clean_sql Sample.sql_reply));
    first [ vm_compute; reflexivity | by vm_compute ].
Defined.

(** ** The LLM methods, read backwards *)

(** X18.  What the generator returns tells what the provider answered:
    a string only for status 200 and a body whose first choice has a
    string content, of which it is the cleaned form; [None] only for
    another status with a JSON body.  In every other case (no [choices],
    no first choice, a null content, an undecodable error body) the
    generator raises. *)
Theorem generator_result_inversion E user_input self sql_query :
  result (get_sql_query_from_openai E user_input self) = Return sql_query →
  ∃ response,
    requests_post E completions_url
      {| model := py "gpt-4-turbo";
         system_content := sql_system_content;
         user_message := Convierte user_input;
         max_tokens := 100 |}
      (py "Bearer " ++ str_of_option (openai_api_key self))
    = Return response ∧
    match sql_query with
    | Some q =>
        status_code response = 200%Z ∧
        ∃ body choices choice message content,
          Response_json response = Return body ∧
          getitem_key body (py "choices") = Return choices ∧
          getitem_0 choices = Return choice ∧
          getitem_key choice (py "message") = Return message ∧
          getitem_key message (py "content") = Return (JStr content) ∧
          q = clean_sql content
    | None =>
        status_code response ≠ 200%Z ∧
        ∃ body, Response_json response = Return body
    end.
Proof.
  unfold get_sql_query_from_openai.
  rewrite self_get_bind, ext_bind.
  destruct (requests_post E _ _ _) as [response|e]; [|done].
  cbn [result]. intros Hres. exists response. split; [done|].
  destruct (status_code response =? 200)%Z eqn:Hstatus.
  - apply Z.eqb_eq in Hstatus.
    rewrite eval_bind in Hres.
    destruct (Response_json response) as [body|?]; [|done].
    rewrite eval_bind in Hres.
    destruct (getitem_key body _) as [choices|?] eqn:Hchoices; [|done].
    rewrite eval_bind in Hres.
    destruct (getitem_0 choices) as [choice|?] eqn:Hchoice; [|done].
    rewrite eval_bind in Hres.
    destruct (getitem_key choice _) as [message|?] eqn:Hmessage; [|done].
    rewrite eval_bind in Hres.
    destruct (getitem_key message _) as [content|?] eqn:Hcontent; [|done].
    rewrite eval_bind in Hres.
    destruct content as [| | | |content| |]; try done.
    injection Hres as <-. split; [done|].
    by exists body, choices, choice, message, content.
  - apply Z.eqb_neq in Hstatus.
    rewrite eval_bind in Hres.
    destruct (Response_json response) as [body|?]; [|done].
    injection Hres as <-. split; [done|]. by exists body.
Qed.

Lemma generator_result_inversion_witness :
  ∃ response,
    requests_post Sample.generator_down completions_url
      {| model := py "gpt-4-turbo";
         system_content := sql_system_content;
         user_message := Convierte Sample.question;
         max_tokens := 100 |}
      (py "Bearer " ++ str_of_option (openai_api_key Sample.bot))
    = Return response ∧
    status_code response ≠ 200%Z ∧
    ∃ body, Response_json response = Return body.
Proof.
  apply (generator_result_inversion Sample.generator_down Sample.question Sample.bot
           None).
  vm_compute. reflexivity.
Defined.

Section Explainer.

Context (E : Env) (query_result : option (list row)) (self : SQLChatBot)
        (response : Response).

Hypothesis posted :
  requests_post E completions_url
    {| model := py "gpt-4-turbo";
       system_content := explain_system_content;
       user_message := Interpreta query_result;
       max_tokens := 200 |}
    (py "Bearer " ++ str_of_option (openai_api_key self))
  = Return response.



End Explainer.


